(** * Number guessing game: the engine of [mygameflask.py]

    A shallow embedding of the class [GameEngine]: sessions, rounds,
    scoring, hints, player statistics, achievements and the hall of fame,
    and of the routes [/start], [/guess], [/end] and [/halloffame] that
    call it.

    Conventions of the embedding.
    - Python [int] is [Z]; the floats the engine handles (clock readings,
      the difficulty multipliers 1.0, 1.5, 2.0, 3.0) are the rationals they
      denote, in [Q]; [int(x)] on a float truncates toward zero.
    - The dictionaries [self.sessions], [self.stats], [self.achievements]
      are [gmap string _]; a session and a round are records, and an in-place
      update of a round is written back into its session and the session
      into the map.
    - A Python [str] is the string of its UTF-8 bytes.
    - The clock ([time.time()]) and the random generator are inputs: every
      operation that reads them takes the readings in an environment record.
    - The store behind [_save_stats], [_save_achievements],
      [_persist_player_stats] and [_persist_achievements] is written to and
      never read back by the operations below, so the writes are left out. *)

From Stdlib Require Import ZArith QArith Qround Ascii String List Lia.
From stdpp Require Import base option list sorting gmap strings pretty.

Open Scope string_scope.
Open Scope list_scope.
Open Scope Z_scope.

(** ** Python values reaching the engine from a JSON body *)

Module Py.

Inductive value :=
| None_
| Bool (b : bool)
| Int (z : Z)
| Float (q : Q)          (* a finite float *)
| NonFinite              (* nan, inf, -inf *)
| Str (s : string)
| Container.             (* a list or a dict *)

(** [c.isspace()] on the ASCII range. *)
Definition is_space (c : ascii) : bool :=
  let n := nat_of_ascii c in
  ((9 <=? n) && (n <=? 13) || (28 <=? n) && (n <=? 32))%nat.

Definition digit_val (c : ascii) : option Z :=
  let n := nat_of_ascii c in
  if ((48 <=? n) && (n <=? 57))%nat then Some (Z.of_nat n - 48) else None.

(** Decimal digits, a single underscore allowed between two digits. *)
Fixpoint digits (acc : Z) (after_digit : bool) (l : list ascii) : option Z :=
  match l with
  | [] => if after_digit then Some acc else None
  | c :: l' =>
      match digit_val c with
      | Some d => digits (10 * acc + d) true l'
      | None =>
          if Ascii.eqb c "_" && after_digit then digits acc false l' else None
      end
  end.

Fixpoint lstrip (l : list ascii) : list ascii :=
  match l with
  | c :: l' => if is_space c then lstrip l' else l
  | [] => []
  end.

Definition strip (l : list ascii) : list ascii :=
  rev (lstrip (rev (lstrip l))).

(** [int(s)] for a string, base ten; [None] is [ValueError].  Only ASCII
    digits and blanks are recognised. *)
Definition int_of_str (s : string) : option Z :=
  match strip (list_ascii_of_string s) with
  | "-"%char :: l => Z.opp <$> digits 0 false l
  | "+"%char :: l => digits 0 false l
  | l => digits 0 false l
  end.

(** [int(x)] for a float: truncation toward zero. *)
Definition trunc (q : Q) : Z := Z.quot (Qnum q) (Zpos (Qden q)).

(** [int(v)]; [None] stands for the exception ([TypeError], [ValueError]
    or [OverflowError]) that [int] raises. *)
Definition int (v : value) : option Z :=
  match v with
  | None_ => None
  | Bool b => Some (if b then 1 else 0)
  | Int z => Some z
  | Float q => Some (trunc q)
  | NonFinite => None
  | Str s => int_of_str s
  | Container => None
  end.

(** Truthiness of an optional integer ([None] and [0] are false). *)
Definition truthy_int (o : option Z) : bool :=
  match o with
  | Some z => negb (z =? 0)
  | None => false
  end.

(** Truthiness of an optional string ([None] and [''] are false). *)
Definition truthy_str (o : option string) : bool :=
  match o with
  | Some s => negb (String.eqb s "")
  | None => false
  end.

Definition Qltb (x y : Q) : bool := negb (Qle_bool y x).

(** [f"{n}"] for an integer. *)
Definition fmt (n : Z) : string := pretty n.

End Py.

(** ** Data model *)

(** One entry of [self.stats]. *)
Record PlayerStats := mkStats {
  games_played : Z;
  games_won : Z;
  total_attempts : Z;
  best_score : Z;
  total_score : Z
}.

(** The dictionary [round_state] of [start_round]; [offered_powerup] is
    [None] when the key is absent. *)
Record Round := mkRound {
  secret_number : Z;
  attempts : Z;
  start_time : Q;
  r_time_limit : option Z;
  closest_distance : Z;
  double_score : bool;
  extra_hints : Z;
  powerup_used : option string;
  active : bool;
  round_num : Z;
  offered_powerup : option string
}.

(** The dictionary [session] of [start_game]. *)
Record Session := mkSession {
  player : string;
  max_number : Z;
  difficulty_bonus : Q;
  rounds_total : Z;
  rounds_played : Z;
  round_scores : list Z;
  active_round : option Round;
  mode : string;
  time_limit : option Z;
  created_at : string;
  powerups : list string;
  session_id : string
}.

(** The mutable part of a [GameEngine] object. *)
Record GameEngine := mkEngine {
  sessions : gmap string Session;
  stats : gmap string PlayerStats;
  achievements : gmap string (list string)
}.

Definition power_ups : list string :=
  ["skip_turn"; "extra_hint"; "double_score"; "freeze_time"].

(** ** Readings of the clock and of the random generator *)

(** What [start_game] reads: [datetime.utcnow().isoformat()], [time.time()]
    and the draw of [random.randint(1, 9999)]. *)
Record StartEnv := mkStartEnv {
  utcnow_iso : string;
  start_clock : Q;
  id_seed : Z
}.

(** What [start_round] reads: the draw of the secret, [time.time()], the
    value of [random.random()] and the draw of [random.choice]. *)
Record RoundEnv := mkRoundEnv {
  secret_seed : Z;
  round_clock : Q;
  roll : Q;
  pick : Z
}.

(** What [make_guess] reads: the readings of the round it may have to open
    and [time.time()] at the time check and at the scoring of a win. *)
Record GuessEnv := mkGuessEnv {
  implicit_round : RoundEnv;
  check_clock : Q;
  win_clock : Q
}.

(** [random.randint(a, b)]: a value of [a..b] picked by the seed, and
    [None] for the [ValueError] raised on an empty range. *)
Definition randint (a b seed : Z) : option Z :=
  if b <? a then None else Some (a + seed mod (b - a + 1)).

(** [random.choice(self.power_ups)]. *)
Definition _random_powerup (seed : Z) : string :=
  nth (Z.to_nat (seed mod 4)) power_ups "skip_turn".

(** ** Responses *)

(** The dictionaries [{'error': ...}] the engine returns. *)
Inductive Error :=
| ErrNoSession              (* start_round, end_session *)
| ErrNoSessionForPlayer     (* make_guess *)
| ErrRoundFinished
| ErrNotInteger
| ErrOutOfRange (hi : Z).

Definition error_message (e : Error) : string :=
  match e with
  | ErrNoSession => "No active session"
  | ErrNoSessionForPlayer => "No active session for player"
  | ErrRoundFinished => "Round already finished for this player"
  | ErrNotInteger => "Guess must be integer"
  | ErrOutOfRange hi => "Guess must be between 1 and " +:+ Py.fmt hi
  end.

(** The error kinds of the specification. *)
Inductive ErrorKind := NoActiveSession | RoundFinished | InvalidGuess.

Definition error_kind (e : Error) : ErrorKind :=
  match e with
  | ErrNoSession | ErrNoSessionForPlayer => NoActiveSession
  | ErrRoundFinished => RoundFinished
  | ErrNotInteger | ErrOutOfRange _ => InvalidGuess
  end.

(** What an operation hands back: one of the response dictionaries, or an
    exception that escapes it. *)
Inductive Response :=
| RError (e : Error)
| RGameStarted (message : string) (session : Session)
| RRoundStarted (message : string) (round : Round)
| RTimeout (message : string)
| RCorrect (score attempts : Z) (time : Q) (new_achievements : list (string * string))
| RWrong (result : string) (attempts : Z) (hints : list string) (message : string)
| RSessionEnded (player_name : string) (total_score : Z) (round_scores : list Z)
| RRaised (exn : string).

(** The ['sound'] key of a response. *)
Definition sound (r : Response) : option string :=
  match r with
  | RError _ | RRaised _ => None
  | RGameStarted _ _ => Some "game_start"
  | RRoundStarted _ _ => Some "round_start"
  | RTimeout _ => Some "elimination"
  | RCorrect _ _ _ _ => Some "victory"
  | RWrong _ _ _ _ => Some "wrong"
  | RSessionEnded _ _ _ => Some "game_end"
  end.

(** ** Record updates *)

Definition with_sessions (E : GameEngine) (m : gmap string Session) : GameEngine :=
  mkEngine m (stats E) (achievements E).

Definition with_stats (E : GameEngine) (m : gmap string PlayerStats) : GameEngine :=
  mkEngine (sessions E) m (achievements E).

Definition with_achievements (E : GameEngine) (m : gmap string (list string)) : GameEngine :=
  mkEngine (sessions E) (stats E) m.

(** [self.sessions[player_name]] after an in-place change of the session. *)
Definition store_session (E : GameEngine) (player_name : string) (s : Session) : GameEngine :=
  with_sessions E (<[player_name := s]> (sessions E)).

Definition set_rounds_played (s : Session) (n : Z) : Session :=
  mkSession (player s) (max_number s) (difficulty_bonus s) (rounds_total s) n
            (round_scores s) (active_round s) (mode s) (time_limit s)
            (created_at s) (powerups s) (session_id s).

Definition set_active_round (s : Session) (r : option Round) : Session :=
  mkSession (player s) (max_number s) (difficulty_bonus s) (rounds_total s)
            (rounds_played s) (round_scores s) r (mode s) (time_limit s)
            (created_at s) (powerups s) (session_id s).

Definition append_score (s : Session) (score : Z) : Session :=
  mkSession (player s) (max_number s) (difficulty_bonus s) (rounds_total s)
            (rounds_played s) (round_scores s ++ [score]) (active_round s)
            (mode s) (time_limit s) (created_at s) (powerups s) (session_id s).

Definition set_active (r : Round) (b : bool) : Round :=
  mkRound (secret_number r) (attempts r) (start_time r) (r_time_limit r)
          (closest_distance r) (double_score r) (extra_hints r)
          (powerup_used r) b (round_num r) (offered_powerup r).

Definition set_attempts (r : Round) (n : Z) : Round :=
  mkRound (secret_number r) n (start_time r) (r_time_limit r)
          (closest_distance r) (double_score r) (extra_hints r)
          (powerup_used r) (active r) (round_num r) (offered_powerup r).

Definition set_closest_distance (r : Round) (d : Z) : Round :=
  mkRound (secret_number r) (attempts r) (start_time r) (r_time_limit r)
          d (double_score r) (extra_hints r)
          (powerup_used r) (active r) (round_num r) (offered_powerup r).

Definition set_extra_hints (r : Round) (n : Z) : Round :=
  mkRound (secret_number r) (attempts r) (start_time r) (r_time_limit r)
          (closest_distance r) (double_score r) n
          (powerup_used r) (active r) (round_num r) (offered_powerup r).

(** ** Achievements *)

(** The rules of [check_achievements], in the order of [achievement_list]:
    name, description and the outcome of the rule's lambda.  [None] is a
    lambda that raises: [self.stats[player_name]] is a [KeyError] for a
    player without statistics.  The lambdas read nothing that the loop
    changes, so their outcomes are taken before the loop. *)
Definition achievement_list (E : GameEngine) (player_name : string)
    (attempts score : Z) (time_taken : Q) : list (string * string * option bool) :=
  let won := games_won <$> (stats E !! player_name) in
  [ ("ðŸŽ¯ First Blood", "Win your first game", (fun w => w =? 1) <$> won);
    ("ðŸ”¥ Speed Demon", "Win in under 10 seconds", Some (Py.Qltb time_taken (inject_Z 10)));
    ("ðŸ§  Mind Reader", "Guess correctly in 1 attempt", Some (attempts =? 1));
    ("ðŸ’¯ Perfectionist", "Score over 150 points", Some (score >? 150));
    ("ðŸ† Champion", "Win 10 games", (fun w => w >=? 10) <$> won);
    ("âš¡ Lightning Fast", "Win in under 5 attempts", Some (attempts <=? 5));
    ("ðŸŽª Show Off", "Score over 200 points", Some (score >? 200)) ].

(** One turn of the loop of [check_achievements], on the pair of
    [player_achievements] and [new_achievements]. *)
Definition check_rule (acc : list string * list (string * string))
    (rule : string * string * option bool) : list string * list (string * string) :=
  let '(player_achievements, new_achievements) := acc in
  let '(name, desc, condition) := rule in
  if bool_decide (name ∈ player_achievements) then acc
  else match condition with
       | Some true => (player_achievements ++ [name], new_achievements ++ [(name, desc)])
       | Some false => acc
       | None => acc                      (* except Exception: pass *)
       end.

Definition check_achievements (E : GameEngine) (player_name : string)
    (attempts score : Z) (time_taken : Q) : GameEngine * list (string * string) :=
  let player_achievements := default [] (achievements E !! player_name) in
  let '(player_achievements', new_achievements) :=
    fold_left check_rule (achievement_list E player_name attempts score time_taken)
              (player_achievements, []) in
  (with_achievements E (<[player_name := player_achievements']> (achievements E)),
   new_achievements).

(** ** Player statistics *)

Definition fresh_stats : PlayerStats := mkStats 0 0 0 0 0.

(** [_ensure_player_stats] followed by the read of [self.stats[player_name]]. *)
Definition _ensure_player_stats (E : GameEngine) (player_name : string) : PlayerStats :=
  default fresh_stats (stats E !! player_name).

Definition bump_stats (s : PlayerStats) (attempts : Z) (won : bool) (score : Z) : PlayerStats :=
  let played := games_played s + 1 in
  let tried := total_attempts s + attempts in
  let total := total_score s + score in
  if won
  then mkStats played (games_won s + 1) tried
               (if score >? best_score s then score else best_score s) total
  else mkStats played (games_won s) tried (best_score s) total.

Definition update_player_stats (E : GameEngine) (player_name : string)
    (attempts : Z) (won : bool) (score : Z) : GameEngine :=
  let s := _ensure_player_stats E player_name in
  with_stats E (<[player_name := bump_stats s attempts won score]> (stats E)).

(** ** Sessions *)

(** [custom_max] is [None] or a Python integer; [choice] is [str(choice)]. *)
Definition _resolve_difficulty (choice : string) (custom_max : option Z) : Z * Q :=
  let tier5 :=
    match custom_max with
    | Some c => if negb (c =? 0) && (c >? 0) then c else 100
    | None => 100
    end in
  if String.eqb choice "1" then (50, 1%Q)
  else if String.eqb choice "2" then (100, 3 # 2)
  else if String.eqb choice "3" then (500, 2%Q)
  else if String.eqb choice "4" then (1000, 3%Q)
  else if String.eqb choice "5" then (tier5, 1%Q)
  else (100, 1%Q).

Definition start_game (E : GameEngine) (player_name mode difficulty : string)
    (custom_max : option Z) (env : StartEnv) : GameEngine * Response :=
  let '(max_number, difficulty_bonus) := _resolve_difficulty difficulty custom_max in
  let rounds := if String.eqb mode "2" then 3 else 1 in
  let time_limit := if String.eqb mode "3" then Some 60 else None in
  let session :=
    mkSession player_name max_number difficulty_bonus rounds 0 [] None mode
              time_limit (utcnow_iso env) []
              (player_name +:+ "-" +:+ Py.fmt (Py.trunc (start_clock env)) +:+ "-"
               +:+ Py.fmt (default 1 (randint 1 9999 (id_seed env)))) in
  (store_session E player_name session,
   RGameStarted ("Game started for " +:+ player_name +:+ ". Mode " +:+ mode
                 +:+ ", Max " +:+ Py.fmt max_number +:+ ".") session).

(** The body of [start_round] on the session it found: the session with
    its counter bumped and, unless the draw of the secret raises, the new
    round. *)
Definition open_round (session : Session) (env : RoundEnv) : Session * option Round :=
  let session1 := set_rounds_played session (rounds_played session + 1) in
  match randint 1 (max_number session) (secret_seed env) with
  | None => (session1, None)
  | Some secret =>
      let round_state :=
        mkRound secret 0 (round_clock env) (time_limit session) (max_number session)
                false 1 None true (rounds_played session1)
                (if Py.Qltb (roll env) (2 # 10)
                 then Some (_random_powerup (pick env)) else None) in
      (set_active_round session1 (Some round_state), Some round_state)
  end.

Definition start_round (E : GameEngine) (player_name : string) (env : RoundEnv)
    : GameEngine * Response :=
  match sessions E !! player_name with
  | None => (E, RError ErrNoSession)
  | Some session =>
      match open_round session env with
      | (session', Some round_state) =>
          (store_session E player_name session',
           RRoundStarted ("Round " +:+ Py.fmt (round_num round_state) +:+ " started")
                         round_state)
      | (session', None) =>
          (store_session E player_name session', RRaised "ValueError")
      end
  end.

(** ** Hints *)

(** [secret_number % divisor == 0] for the first [divisor] of the list. *)
Fixpoint first_divisor (secret_number : Z) (divisors : list Z) : option Z :=
  match divisors with
  | [] => None
  | d :: rest =>
      if secret_number mod d =? 0 then Some d else first_divisor secret_number rest
  end.

Definition parity_hint (secret_number : Z) : string :=
  "The number is " +:+ (if secret_number mod 2 =? 0 then "even" else "odd").

Definition quarter_hint (secret_number max_number : Z) : string :=
  if secret_number <=? max_number / 4
  then "The number is in the first quarter of the range"
  else if secret_number <=? max_number / 2
  then "The number is in the second quarter of the range"
  else if secret_number <=? (3 * max_number) / 4
  then "The number is in the third quarter of the range"
  else "The number is in the fourth quarter of the range".

Definition divisor_hint (d : Z) : string :=
  "The number is divisible by " +:+ Py.fmt d.

Definition get_hint (secret_number max_number attempts : Z) : list string :=
  (if attempts >=? 3 then [parity_hint secret_number] else [])
  ++ (if attempts >=? 5 then [quarter_hint secret_number max_number] else [])
  ++ (if attempts >=? 7
      then match first_divisor secret_number [3; 5; 7] with
           | Some d => [divisor_hint d]
           | None => []
           end
      else []).

(** ** Guessing *)

(** The score of a solved round (the arithmetic of the winning branch of
    [make_guess]), on the round as it is once the winning guess has been
    counted. *)
Definition round_score (session : Session) (rnd : Round) (elapsed_time : Q) : Z :=
  let base_score := Z.max 0 (100 - attempts rnd) in
  let time_bonus :=
    if Py.Qltb elapsed_time (inject_Z 50)
    then Z.max 0 (50 - Py.trunc elapsed_time) else 0 in
  let proximity_bonus :=
    if closest_distance rnd <? 20 then Z.max 0 (20 - closest_distance rnd) else 0 in
  let difficulty_score :=
    Py.trunc (inject_Z base_score * difficulty_bonus session) in
  let power_up_bonus := if Py.truthy_str (powerup_used rnd) then 25 else 0 in
  let total_score := difficulty_score + time_bonus + proximity_bonus + power_up_bonus in
  if double_score rnd then total_score * 2 else total_score.

(** The time check of [make_guess]. *)
Definition timed_out (rnd : Round) (now : Q) : bool :=
  match r_time_limit rnd with
  | Some limit =>
      Py.truthy_int (Some limit) && Py.Qltb (inject_Z limit) (now - start_time rnd)
  | None => false
  end.

(** The hint step of a wrong guess: the round with its budget updated and
    [hint_texts]. *)
Definition take_hint (session : Session) (rnd : Round) : Round * list string :=
  if (attempts rnd >=? (if extra_hints rnd >? 1 then 2 else 3))
     && (extra_hints rnd >? 0)
  then match get_hint (secret_number rnd) (max_number session) (attempts rnd) with
       | hint :: _ => (set_extra_hints rnd (extra_hints rnd - 1), [hint])
       | [] => (rnd, [])
       end
  else (rnd, []).

(** The bookkeeping of a guess in range: one more attempt, and the closest
    distance if the guess beats it. *)
Definition count_guess (rnd : Round) (g : Z) : Round :=
  let rnd1 := set_attempts rnd (attempts rnd + 1) in
  let current_distance := Z.abs (g - secret_number rnd1) in
  if current_distance <? closest_distance rnd1
  then set_closest_distance rnd1 current_distance else rnd1.

(** [make_guess] from the read of [rnd = session['active_round']] on; [E]
    already holds [session] with [rnd] as its active round. *)
Definition guess_in_round (E : GameEngine) (player_name : string)
    (session : Session) (rnd : Round) (guess : Py.value) (env : GuessEnv)
    : GameEngine * Response :=
  if negb (active rnd) then (E, RError ErrRoundFinished)
  else if timed_out rnd (check_clock env) then
    let rnd' := set_active rnd false in
    let session' := append_score (set_active_round session (Some rnd')) 0 in
    let E' := update_player_stats (store_session E player_name session')
                                  player_name (attempts rnd') false 0 in
    (E', RTimeout ("The number was " +:+ Py.fmt (secret_number rnd')))
  else
    match Py.int guess with
    | None => (E, RError ErrNotInteger)
    | Some g =>
        if (g <? 1) || (g >? max_number session)
        then (E, RError (ErrOutOfRange (max_number session)))
        else
          let rnd2 := count_guess rnd g in
          if g =? secret_number rnd2 then
            let rnd3 := set_active rnd2 false in
            let elapsed_time := (win_clock env - start_time rnd3)%Q in
            let total_score := round_score session rnd3 elapsed_time in
            let session' :=
              append_score (set_active_round session (Some rnd3)) total_score in
            let E1 := store_session E player_name session' in
            let E2 := update_player_stats E1 player_name (attempts rnd3) true total_score in
            let '(E3, new_achs) :=
              check_achievements E2 player_name (attempts rnd3) total_score elapsed_time in
            (E3, RCorrect total_score (attempts rnd3) elapsed_time new_achs)
          else
            let '(rnd3, hint_texts) := take_hint session rnd2 in
            let E1 := store_session E player_name (set_active_round session (Some rnd3)) in
            if g <? secret_number rnd3
            then (E1, RWrong "too_low" (attempts rnd3) hint_texts "Guess higher")
            else (E1, RWrong "too_high" (attempts rnd3) hint_texts "Guess lower")
    end.

Definition make_guess (E : GameEngine) (player_name : string) (guess : Py.value)
    (env : GuessEnv) : GameEngine * Response :=
  match sessions E !! player_name with
  | None => (E, RError ErrNoSessionForPlayer)
  | Some session =>
      match active_round session with
      | Some rnd => guess_in_round E player_name session rnd guess env
      | None =>
          (* if not session.get('active_round'): self.start_round(player_name) *)
          match open_round session (implicit_round env) with
          | (session', Some rnd) =>
              guess_in_round (store_session E player_name session') player_name
                             session' rnd guess env
          | (session', None) =>
              (store_session E player_name session', RRaised "ValueError")
          end
      end
  end.

(** [sum(final_scores)]. *)
Definition sum (l : list Z) : Z := fold_left Z.add l 0.

Definition end_session (E : GameEngine) (player_name : string) : GameEngine * Response :=
  match sessions E !! player_name with
  | None => (E, RError ErrNoSession)
  | Some session =>
      let final_scores := round_scores session in
      let total := sum final_scores in
      (with_sessions E (delete player_name (sessions E)),
       RSessionEnded player_name total final_scores)
  end.

(** ** Sequences of operations *)

(** A new engine: no session; statistics and achievements as loaded from
    the store. *)
Definition new_engine (loaded_stats : gmap string PlayerStats)
    (loaded_achievements : gmap string (list string)) : GameEngine :=
  mkEngine ∅ loaded_stats loaded_achievements.

Inductive Op :=
| OpStart (player_name mode difficulty : string) (custom_max : option Z) (env : StartEnv)
| OpStartRound (player_name : string) (env : RoundEnv)
| OpGuess (player_name : string) (guess : Py.value) (env : GuessEnv)
| OpEndSession (player_name : string).

Definition step (E : GameEngine) (op : Op) : GameEngine :=
  match op with
  | OpStart p m d c env => fst (start_game E p m d c env)
  | OpStartRound p env => fst (start_round E p env)
  | OpGuess p g env => fst (make_guess E p g env)
  | OpEndSession p => fst (end_session E p)
  end.

Definition run (E : GameEngine) (ops : list Op) : GameEngine := fold_left step ops E.


(** The session and the round a guess is played on: the active round of
    the session, or the one [make_guess] opens when there is none. *)
Definition round_in_play (session : Session) (env : GuessEnv) : option (Session * Round) :=
  match active_round session with
  | Some rnd => Some (session, rnd)
  | None =>
      match open_round session (implicit_round env) with
      | (session', Some rnd) => Some (session', rnd)
      | (_, None) => None
      end
  end.

(** The engine a guess is played on: [E], or [E] with the round that
    [make_guess] opened stored in the session. *)
Definition engine_in_play (E : GameEngine) (player_name : string)
    (session : Session) (env : GuessEnv) : GameEngine :=
  match active_round session with
  | Some _ => E
  | None => store_session E player_name (fst (open_round session (implicit_round env)))
  end.


(** A guess that [make_guess] turns down: [int] raises on it, or the
    integer it gives is outside of 1..[hi]. *)
Definition turned_down (guess : Py.value) (hi : Z) : Prop :=
  match Py.int guess with
  | None => True
  | Some g => g < 1 \/ hi < g
  end.

(** A caller's guard on [start_round]: a round is opened only while the
    session has rounds left.  The engine itself does not check it. *)
Definition rounds_left (E : GameEngine) (op : Op) : bool :=
  match op with
  | OpStartRound p _ =>
      match sessions E !! p with
      | Some s => rounds_played s <? rounds_total s
      | None => true
      end
  | _ => true
  end.

(** The states a new engine reaches when every [start_round] is guarded. *)
Inductive reachable (E0 : GameEngine) : GameEngine -> Prop :=
| reach_init : reachable E0 E0
| reach_step E op :
    reachable E0 E -> rounds_left E op = true -> reachable E0 (step E op).

(** The two routes that open rounds: [/start] runs [start_game] and then
    [start_round]. *)
Definition start_route (E : GameEngine) (player_name mode difficulty : string)
    (custom_max : option Z) (env : StartEnv) (renv : RoundEnv) : GameEngine :=
  fst (start_round (fst (start_game E player_name mode difficulty custom_max env))
                   player_name renv).

(** What the sessions of a well-formed engine satisfy. *)
Record session_ok (s : Session) : Prop := mkSessionOk {
  ok_max : 1 <= max_number s;
  ok_total : 1 <= rounds_total s;
  ok_played : 0 <= rounds_played s <= rounds_total s;
  ok_fresh : active_round s = None -> rounds_played s = 0;
  ok_bonus : (0 <= difficulty_bonus s)%Q
}.

Definition engine_ok (E : GameEngine) : Prop :=
  forall p s, sessions E !! p = Some s -> session_ok s.

(** [stats[player]['best_score']], zero for a player without statistics
    (the value [_ensure_player_stats] starts from). *)
Definition best_of (E : GameEngine) (player_name : string) : Z :=
  best_score (_ensure_player_stats E player_name).

(** A finished round as [update_player_stats] is told of it. *)
Record Outcome := mkOutcome {
  o_player : string;
  o_attempts : Z;
  o_won : bool;
  o_score : Z
}.

Definition record_outcome (E : GameEngine) (o : Outcome) : GameEngine :=
  update_player_stats E (o_player o) (o_attempts o) (o_won o) (o_score o).

Definition record_outcomes (E : GameEngine) (l : list Outcome) : GameEngine :=
  fold_left record_outcome l E.

(** The scores of the rounds [player_name] won, in order. *)
Definition winning_scores (player_name : string) (l : list Outcome) : list Z :=
  o_score <$> filter (fun o => o_player o = player_name /\ o_won o = true) l.

(** The running maximum of [l] above [start]. *)
Definition running_max (start : Z) (l : list Z) : Z := fold_left Z.max l start.

Definition rule_name (r : string * string * option bool) : string := fst (fst r).

(** The rules of a call that are granted: not yet unlocked and with a
    lambda that returns [True]. *)
Definition granted (unlocked : list string)
    (rules : list (string * string * option bool)) : list (string * string) :=
  fmap (fun r : string * string * option bool => (rule_name r, snd (fst r)))
       (filter (fun r : string * string * option bool =>
                  (rule_name r ∉ unlocked) /\ (snd r = Some true)) rules).

(** ** Sample plays *)

Definition sample_start_env : StartEnv := mkStartEnv "2024-01-01T00:00:00" 1000 7.
Definition sample_round_env : RoundEnv := mkRoundEnv 24 1000 (1 # 2) 0.
Definition sample_guess_env : GuessEnv := mkGuessEnv sample_round_env 1010 1012.

(** Alice on tier 1, the secret drawn is 25. *)
Definition sample_ops : list Op :=
  [OpStart "alice" "1" "1" None sample_start_env; OpStartRound "alice" sample_round_env].

Definition sample_round : Round :=
  mkRound 25 0 1000 None 50 false 1 None true 1 None.

Definition sample_session : Session :=
  mkSession "alice" 50 1 1 1 [] (Some sample_round) "1" None
            "2024-01-01T00:00:00" [] "alice-1000-8".

Definition sample_engine : GameEngine :=
  store_session (new_engine ∅ ∅) "alice" sample_session.

(** Alice after the misses 10 and 40. *)
Definition sample_round_2 : Round :=
  mkRound 25 2 1000 None 15 false 1 None true 1 None.

Definition sample_session_2 : Session :=
  set_active_round sample_session (Some sample_round_2).

Definition sample_engine_2 : GameEngine :=
  store_session (new_engine ∅ ∅) "alice" sample_session_2.

(** Bob on tier 2 against the clock, the secret drawn is 25, and a guess
    61 seconds after the start of the round. *)
Definition timed_ops : list Op :=
  [OpStart "bob" "3" "2" None sample_start_env; OpStartRound "bob" sample_round_env].

Definition timed_round : Round :=
  mkRound 25 0 1000 (Some 60) 100 false 1 None true 1 None.

Definition timed_session : Session :=
  mkSession "bob" 100 (3 # 2) 1 1 [] (Some timed_round) "3" (Some 60)
            "2024-01-01T00:00:00" [] "bob-1000-8".

Definition timed_engine : GameEngine :=
  store_session (new_engine ∅ ∅) "bob" timed_session.

Definition late_guess_env : GuessEnv := mkGuessEnv sample_round_env 1061 1061.

(** An engine that loaded one achievement for Alice. *)
Definition first_blood : string := "ðŸŽ¯ First Blood".

Definition veteran_engine : GameEngine :=
  new_engine ∅ {[ "alice" := [first_blood] ]}.

(** ** Well-formed states *)

(** What the rounds that the engine builds and updates satisfy. *)
Record round_wf (s : Session) (r : Round) : Prop := mkRoundWf {
  wf_secret : 1 <= secret_number r <= max_number s;
  wf_attempts : 0 <= attempts r;
  wf_closest : 0 <= closest_distance r <= max_number s;
  wf_powerup : powerup_used r = None;
  wf_double : double_score r = false;
  wf_limit : r_time_limit r = time_limit s;
  wf_budget : extra_hints r = 0 \/ extra_hints r = 1;
  wf_live : active r = true ->
            1 <= closest_distance r
            /\ extra_hints r = (if attempts r <? 3 then 1 else 0)
}.

Record session_wf (s : Session) : Prop := mkSessionWf {
  swf_max : 1 <= max_number s;
  swf_bonus : difficulty_bonus s = 1%Q \/ difficulty_bonus s = 3 # 2
              \/ difficulty_bonus s = 2%Q \/ difficulty_bonus s = 3%Q;
  swf_limit : time_limit s = None \/ time_limit s = Some 60;
  swf_total : rounds_total s = 1 \/ rounds_total s = 3;
  swf_played : 0 <= rounds_played s;
  swf_scores : Forall (fun x => 0 <= x) (round_scores s);
  swf_round : forall r, active_round s = Some r -> round_wf s r
}.

(** What the statistics that the engine writes satisfy. *)
Record stats_wf (st : PlayerStats) : Prop := mkStatsWf {
  stwf_played : 1 <= games_played st;
  stwf_won : 0 <= games_won st <= games_played st;
  stwf_attempts : games_won st <= total_attempts st;
  stwf_best : 0 <= best_score st <= total_score st;
  stwf_no_win : games_won st = 0 -> best_score st = 0
}.

Definition sessions_wf (E : GameEngine) : Prop :=
  forall p s, sessions E !! p = Some s -> session_wf s.

Definition all_stats_wf (m : gmap string PlayerStats) : Prop :=
  forall p st, m !! p = Some st -> stats_wf st.

(** The player an operation is for. *)
Definition op_player (op : Op) : string :=
  match op with
  | OpStart p _ _ _ _ | OpStartRound p _ | OpGuess p _ _ | OpEndSession p => p
  end.

(** A run of integer guesses of one player. *)
Definition guess_all (E : GameEngine) (player_name : string)
    (l : list (Z * GuessEnv)) : GameEngine :=
  fold_left (fun E' ge => fst (make_guess E' player_name (Py.Int (fst ge)) (snd ge))) l E.

(** The distances of the guesses of a run to the secret. *)
Definition distances (secret : Z) (l : list (Z * GuessEnv)) : list Z :=
  (fun ge => Z.abs (fst ge - secret)) <$> l.

(** ** Hall of fame *)

(** One entry of the list that [hall_of_fame] returns. *)
Record HofEntry := mkHofEntry {
  hof_player : string;
  hof_best_score : Z;
  hof_achievements : Z
}.

(** One step of a stable sort by [best_score], highest first: [x], which
    stood before all of [l], goes behind the entries with a higher score
    and before those with the same or a lower one. *)
Fixpoint insert_by_best (x : string * PlayerStats) (l : list (string * PlayerStats))
    : list (string * PlayerStats) :=
  match l with
  | [] => [x]
  | y :: l' =>
      if best_score (snd x) <? best_score (snd y)
      then y :: insert_by_best x l' else x :: l
  end.

(** [sorted(items, key=lambda x: x[1]['best_score'], reverse=True)]: the
    stable sort, highest score first, ties in the order of [items]. *)
Definition sorted_by_best (items : list (string * PlayerStats))
    : list (string * PlayerStats) :=
  fold_right insert_by_best [] items.

(** The slice [l[:n]] for an integer [n]: a negative [n] counts from the
    end. *)
Definition slice_to {A : Type} (l : list A) (n : Z) : list A :=
  if 0 <=? n then take (Z.to_nat n) l
  else take (length l - Z.to_nat (- n)) l.

(** [self.achievements.get(player_name, [])], without a store. *)
Definition get_achievements (E : GameEngine) (player_name : string) : list string :=
  default [] (achievements E !! player_name).

Definition hof_entry (E : GameEngine) (p : string * PlayerStats) : HofEntry :=
  mkHofEntry (fst p) (best_score (snd p))
             (Z.of_nat (length (get_achievements E (fst p)))).

(** [hall_of_fame] of an engine without a store.  [items] is
    [self.stats.items()]: the entries of the dictionary in the order in
    which the players were entered, which the map [stats E] does not keep. *)
Definition hall_of_fame (E : GameEngine) (items : list (string * PlayerStats))
    (limit : Z) : list HofEntry :=
  match items with
  | [] => []
  | _ => hof_entry E <$> slice_to (sorted_by_best items) limit
  end.

(** [items] lists the dictionary [m]: every key once, with its value. *)
Definition items_of (m : gmap string PlayerStats)
    (items : list (string * PlayerStats)) : Prop :=
  NoDup (fst <$> items) /\ forall k v, (k, v) ∈ items <-> m !! k = Some v.

(** [hof_route]: the query argument [limit] is absent or a string; what
    [int] does not convert counts as 5. *)
Definition hof_route (E : GameEngine) (items : list (string * PlayerStats))
    (limit : option string) : list HofEntry :=
  hall_of_fame E items
    (match limit with
     | None => 5
     | Some arg => default 5 (Py.int_of_str arg)
     end).

(** ** Routes *)

(** What a route answers: a response dictionary with status 200, an error
    with status 400, or an exception that escapes the handler. *)
Inductive Reply :=
| Reply200 (body : Response)
| Reply400 (error : string)
| Reply500 (exn : string).

Definition reply_of (r : Response) : Reply :=
  match r with
  | RRaised exn => Reply500 exn
  | _ => Reply200 r
  end.

(** [start_route], for a body whose [player], [mode] and [difficulty] are
    absent or strings and whose [custom_max] is absent or an integer.  The
    response of [start_game] holds the session object itself, which
    [start_round] then updates in place: the reply shows the session as
    [start_round] left it. *)
Definition post_start (E : GameEngine) (player mode difficulty : option string)
    (custom_max : option Z) (env : StartEnv) (renv : RoundEnv) : GameEngine * Reply :=
  if negb (Py.truthy_str player) then (E, Reply400 "player required")
  else
    let p := default "" player in
    let '(E1, resp) :=
      start_game E p (default "1" mode) (default "2" difficulty) custom_max env in
    let '(E2, started) := start_round E1 p renv in
    match started with
    | RRaised exn => (E2, Reply500 exn)
    | _ =>
        match resp with
        | RGameStarted message session =>
            (E2, Reply200 (RGameStarted message (default session (sessions E2 !! p))))
        | _ => (E2, Reply200 resp)
        end
    end.

(** [guess_route]; [guess] is [None] when the key is absent. *)
Definition post_guess (E : GameEngine) (player : option string)
    (guess : option Py.value) (env : GuessEnv) : GameEngine * Reply :=
  if negb (Py.truthy_str player) then (E, Reply400 "player required")
  else
    match guess with
    | None | Some Py.None_ => (E, Reply400 "guess required")
    | Some g =>
        let '(E', r) := make_guess E (default "" player) g env in
        (E', reply_of r)
    end.

(** [end_route]. *)
Definition post_end (E : GameEngine) (player : option string) : GameEngine * Reply :=
  if negb (Py.truthy_str player) then (E, Reply400 "player required")
  else
    let '(E', r) := end_session E (default "" player) in
    (E', reply_of r).

Inductive Request :=
| PostStart (player mode difficulty : option string) (custom_max : option Z)
            (env : StartEnv) (renv : RoundEnv)
| PostGuess (player : option string) (guess : option Py.value) (env : GuessEnv)
| PostEnd (player : option string).

Definition handle (E : GameEngine) (req : Request) : GameEngine * Reply :=
  match req with
  | PostStart p m d c env renv => post_start E p m d c env renv
  | PostGuess p g env => post_guess E p g env
  | PostEnd p => post_end E p
  end.

(** The engine after a sequence of requests. *)
Definition serve (E : GameEngine) (reqs : list Request) : GameEngine :=
  fold_left (fun E' req => fst (handle E' req)) reqs E.


(** ** The branches of a guess *)

(** The engine after a guess that came too late. *)
Definition timeout_state (E : GameEngine) (p : string) (s : Session) (r : Round)
    : GameEngine :=
  update_player_stats
    (store_session E p (append_score (set_active_round s (Some (set_active r false))) 0))
    p (attempts r) false 0.

(** The round once the guess [g] has been counted and has won. *)
Definition won_round (r : Round) (g : Z) : Round := set_active (count_guess r g) false.

Definition win_score (s : Session) (r : Round) (g : Z) (env : GuessEnv) : Z :=
  round_score s (won_round r g) (win_clock env - start_time r).

(** The engine after a winning guess, before the achievements are judged. *)
Definition win_state (E : GameEngine) (p : string) (s : Session) (r : Round)
    (g : Z) (env : GuessEnv) : GameEngine :=
  update_player_stats
    (store_session E p
       (append_score (set_active_round s (Some (won_round r g))) (win_score s r g env)))
    p (attempts r + 1) true (win_score s r g env).

(** The round once the guess [g] has been counted and has missed. *)
Definition missed_round (s : Session) (r : Round) (g : Z) : Round :=
  fst (take_hint s (count_guess r g)).

(** ** Bookkeeping of outcomes and achievements *)

(** The outcomes of one player. *)
Definition outcomes_of (player_name : string) (l : list Outcome) : list Outcome :=
  filter (fun o => o_player o = player_name) l.

(** The names of the seven rules, in the order of [achievement_list]; they
    do not depend on the call. *)
Definition achievement_names : list string :=
  rule_name <$> achievement_list (new_engine ∅ ∅) "" 0 0 0.

(** The name of the rule at position [i]. *)
Definition achievement_name (i : nat) : string := nth i achievement_names "".

(** The order of the hall of fame: the higher best score first. *)
Definition by_best_desc (x y : string * PlayerStats) : Prop :=
  best_score (snd y) <= best_score (snd x).

Definition hof_desc (e1 e2 : HofEntry) : Prop :=
  hof_best_score e2 <= hof_best_score e1.

(** The number of entries of [l[:n]] for a list of length [len]. *)
Definition slice_length (len : nat) (n : Z) : nat :=
  if 0 <=? n then Nat.min (Z.to_nat n) len else (len - Z.to_nat (- n))%nat.

(** The response of an operation. *)
Definition respond (E : GameEngine) (op : Op) : Response :=
  match op with
  | OpStart p m d c env => snd (start_game E p m d c env)
  | OpStartRound p env => snd (start_round E p env)
  | OpGuess p g env => snd (make_guess E p g env)
  | OpEndSession p => snd (end_session E p)
  end.

(** * Properties *)

(** ** Reading the session map back *)

Lemma lookup_store_session E p s :
  sessions (store_session E p s) !! p = Some s.
Proof. unfold store_session; simpl. apply lookup_insert_eq. Qed.

Lemma lookup_store_session_ne E p q s :
  p <> q -> sessions (store_session E p s) !! q = sessions E !! q.
Proof. intros Hne. unfold store_session; simpl. by apply lookup_insert_ne. Qed.

Lemma stats_store_session E p s : stats (store_session E p s) = stats E.
Proof. reflexivity. Qed.

Lemma achievements_store_session E p s :
  achievements (store_session E p s) = achievements E.
Proof. reflexivity. Qed.

Lemma sessions_update_player_stats E p a w sc :
  sessions (update_player_stats E p a w sc) = sessions E.
Proof. reflexivity. Qed.

Lemma achievements_update_player_stats E p a w sc :
  achievements (update_player_stats E p a w sc) = achievements E.
Proof. reflexivity. Qed.

Lemma sessions_check_achievements E p a sc t :
  sessions (fst (check_achievements E p a sc t)) = sessions E.
Proof.
  unfold check_achievements.
  destruct (fold_left _ _ _) as [pa new]. reflexivity.
Qed.

Lemma stats_check_achievements E p a sc t :
  stats (fst (check_achievements E p a sc t)) = stats E.
Proof.
  unfold check_achievements.
  destruct (fold_left _ _ _) as [pa new]. reflexivity.
Qed.

(** ** Difficulty tiers *)

Lemma start_game_session E p mode difficulty custom_max env :
  exists msg s,
    start_game E p mode difficulty custom_max env
      = (store_session E p s, RGameStarted msg s)
    /\ (max_number s, difficulty_bonus s) = _resolve_difficulty difficulty custom_max
    /\ rounds_total s = (if String.eqb mode "2" then 3 else 1)
    /\ rounds_played s = 0 /\ active_round s = None /\ round_scores s = []
    /\ time_limit s = (if String.eqb mode "3" then Some 60 else None).
Proof.
  unfold start_game.
  destruct (_resolve_difficulty difficulty custom_max) as [mx bonus].
  eexists _, _. split; [reflexivity|]. simpl. repeat split; reflexivity.
Qed.





(** ** Ending a session *)

Lemma fold_add_shift (l : list Z) (a : Z) : fold_left Z.add l a = a + fold_left Z.add l 0.
Proof.
  revert a. induction l as [|x l IH]; intros a; simpl; [lia|].
  rewrite (IH (a + x)), (IH (0 + x)). lia.
Qed.

Lemma sum_cons (x : Z) (l : list Z) : sum (x :: l) = x + sum l.
Proof. unfold sum; simpl. apply fold_add_shift. Qed.

Lemma sum_app (l1 l2 : list Z) : sum (l1 ++ l2) = sum l1 + sum l2.
Proof.
  induction l1 as [|x l1 IH]; simpl; [reflexivity|].
  rewrite !sum_cons, IH. lia.
Qed.

(** C9. With a session for the player, [end_session] returns as total the
    sum of the recorded round scores and deletes the session (nothing else
    changes), so that a guess or a second [end_session] for the player then
    fails with a [NoActiveSession] error; without a session, [end_session]
    fails with a [NoActiveSession] error and changes nothing. *)
Theorem end_session_total E p :
  match sessions E !! p with
  | Some session =>
      exists E',
        end_session E p
          = (E', RSessionEnded p (sum (round_scores session)) (round_scores session))
        /\ sessions E' = delete p (sessions E)
        /\ sessions E' !! p = None
        /\ stats E' = stats E /\ achievements E' = achievements E
        /\ (forall guess env, exists e,
              make_guess E' p guess env = (E', RError e)
              /\ error_kind e = NoActiveSession)
        /\ (exists e, end_session E' p = (E', RError e)
                      /\ error_kind e = NoActiveSession)
  | None =>
      exists e, end_session E p = (E, RError e) /\ error_kind e = NoActiveSession
  end.
Proof.
  unfold end_session.
  destruct (sessions E !! p) as [session|] eqn:Hs.
  - eexists. split; [reflexivity|]. simpl.
    assert (Hgone : delete p (sessions E) !! p = None) by apply lookup_delete_eq.
    repeat split; try done.
    + intros guess env. exists ErrNoSessionForPlayer.
      unfold make_guess; simpl. by rewrite Hgone.
    + exists ErrNoSession. simpl. by rewrite Hgone.
  - by exists ErrNoSession.
Qed.

(** The scenario of the specification: two recorded scores, 80 and 95. *)
Example end_session_175 :
  let s := mkSession "alice" 50 1 3 2 [80; 95] None "2" None "t" [] "alice-1-1" in
  let E := store_session (new_engine ∅ ∅) "alice" s in
  snd (end_session E "alice") = RSessionEnded "alice" 175 [80; 95]
  /\ snd (make_guess (fst (end_session E "alice")) "alice" (Py.Int 3)
                     (mkGuessEnv (mkRoundEnv 0 0 0 0) 0 0))
     = RError ErrNoSessionForPlayer.
Proof. split; vm_compute; reflexivity. Qed.

(** ** Best score *)

Lemma best_of_update E p q a w sc :
  best_of (update_player_stats E q a w sc) p
  = if bool_decide (q = p)
    then (if w then Z.max (best_of E p) sc else best_of E p)
    else best_of E p.
Proof.
  unfold best_of, _ensure_player_stats, update_player_stats; simpl.
  case_bool_decide as Hq.
  - subst q. rewrite lookup_insert_eq; simpl.
    unfold bump_stats, _ensure_player_stats. destruct w; simpl; [|reflexivity].
    destruct (Z.gtb_spec sc (best_score (default fresh_stats (stats E !! p)))); lia.
  - by rewrite lookup_insert_ne.
Qed.

Lemma running_max_ge (l : list Z) (a : Z) : a <= running_max a l.
Proof.
  unfold running_max. revert a.
  induction l as [|x l IH]; intros a; simpl; [lia|].
  specialize (IH (Z.max a x)). lia.
Qed.

Lemma running_max_app (l1 l2 : list Z) (a : Z) :
  running_max a (l1 ++ l2) = running_max (running_max a l1) l2.
Proof. unfold running_max. apply fold_left_app. Qed.

Lemma winning_scores_app p (l1 l2 : list Outcome) :
  winning_scores p (l1 ++ l2) = winning_scores p l1 ++ winning_scores p l2.
Proof. unfold winning_scores. by rewrite filter_app, fmap_app. Qed.

Lemma best_of_record_outcomes E p (l : list Outcome) :
  best_of (record_outcomes E l) p = running_max (best_of E p) (winning_scores p l).
Proof.
  unfold record_outcomes. revert E.
  induction l as [|o l IH]; intros E; simpl; [reflexivity|].
  rewrite IH. unfold record_outcome at 1. rewrite best_of_update.
  unfold winning_scores. rewrite filter_cons.
  destruct (decide (o_player o = p /\ o_won o = true)) as [[Hp Hw]|Hno].
  - rewrite bool_decide_eq_true_2 by done. rewrite Hw. reflexivity.
  - case_bool_decide as Hq; [|reflexivity].
    destruct (o_won o); [|reflexivity]. by destruct Hno.
Qed.

Lemma best_of_same_stats E1 E2 p : stats E1 = stats E2 -> best_of E1 p = best_of E2 p.
Proof. intros H. unfold best_of, _ensure_player_stats. by rewrite H. Qed.

Lemma best_of_store_session E q s p : best_of (store_session E q s) p = best_of E p.
Proof. reflexivity. Qed.

Lemma best_of_update_le E p q a w sc :
  best_of E p <= best_of (update_player_stats E q a w sc) p.
Proof. rewrite best_of_update. case_bool_decide; [destruct w|]; lia. Qed.

Lemma best_of_guess_in_round E p q s r g env :
  best_of E p <= best_of (fst (guess_in_round E q s r g env)) p.
Proof.
  unfold guess_in_round.
  destruct (negb (active r)); [simpl; lia|].
  destruct (timed_out r (check_clock env)).
  { simpl. etrans; [|apply best_of_update_le]. rewrite best_of_store_session. lia. }
  destruct (Py.int g) as [z|]; [|simpl; lia].
  destruct (_ || _); [simpl; lia|].
  match goal with |- context [if ?z =? ?c then _ else _] => destruct (z =? c) end.
  - match goal with
    | |- context [check_achievements ?E1 ?q1 ?a1 ?s1 ?t1] =>
        pose proof (stats_check_achievements E1 q1 a1 s1 t1) as Hca;
        destruct (check_achievements E1 q1 a1 s1 t1) as [E3 new]
    end.
    cbn [fst] in Hca |- *. rewrite (best_of_same_stats _ _ p Hca).
    etrans; [|apply best_of_update_le]. rewrite best_of_store_session. lia.
  - destruct (take_hint _ _) as [r3 hints].
    destruct (_ <? _); simpl; rewrite best_of_store_session; lia.
Qed.

Lemma best_of_step E op p : best_of E p <= best_of (step E op) p.
Proof.
  destruct op as [q m d c env|q env|q g env|q]; simpl.
  - destruct (start_game_session E q m d c env) as (msg & s & -> & _). simpl.
    rewrite best_of_store_session. lia.
  - unfold start_round. destruct (sessions E !! q) as [s|]; [|simpl; lia].
    destruct (open_round s env) as [s' [r|]]; simpl;
      rewrite best_of_store_session; lia.
  - unfold make_guess. destruct (sessions E !! q) as [s|]; [|simpl; lia].
    destruct (active_round s) as [r|]; [apply best_of_guess_in_round|].
    destruct (open_round s (implicit_round env)) as [s' [r|]].
    + etrans; [|apply best_of_guess_in_round]. rewrite best_of_store_session. lia.
    + simpl. rewrite best_of_store_session. lia.
  - unfold end_session. destruct (sessions E !! q) as [s|]; simpl; [|lia].
    apply Z.eq_le_incl, best_of_same_stats. reflexivity.
Qed.

(** C7. A player's [best_score] never decreases, under any operation of
    the engine and along any sequence of recorded rounds; after a sequence
    of rounds it is the running maximum of the scores of the rounds the
    player won, a round that is recorded as lost leaves it as it was, and a
    player without statistics starts from zero. *)
Theorem best_score_running_max E p :
  (forall op, best_of E p <= best_of (step E op) p)
  /\ (forall l1 l2,
        best_of (record_outcomes E l1) p <= best_of (record_outcomes E (l1 ++ l2)) p)
  /\ (forall l,
        best_of (record_outcomes E l) p
        = running_max (best_of E p) (winning_scores p l))
  /\ (forall q a sc,
        best_of (update_player_stats E q a false sc) p = best_of E p)
  /\ (forall a sc,
        best_of (update_player_stats E p a true sc) p = Z.max (best_of E p) sc)
  /\ best_of (with_stats E (delete p (stats E))) p = 0.
Proof.
  split; [intros op; apply best_of_step|].
  split.
  { intros l1 l2. rewrite !best_of_record_outcomes, winning_scores_app, running_max_app.
    apply running_max_ge. }
  split; [apply best_of_record_outcomes|].
  split.
  { intros q a sc. rewrite best_of_update. by case_bool_decide. }
  split.
  { intros a sc. rewrite best_of_update. by rewrite bool_decide_eq_true_2. }
  unfold best_of, _ensure_player_stats; simpl. by rewrite lookup_delete_eq.
Qed.

(** ** Achievements *)

Lemma granted_cons unlocked (r : string * string * option bool) rules :
  granted unlocked (r :: rules)
  = if decide ((rule_name r ∉ unlocked) /\ (snd r = Some true))
    then (rule_name r, snd (fst r)) :: granted unlocked rules
    else granted unlocked rules.
Proof.
  unfold granted. rewrite filter_cons.
  destruct (decide _); reflexivity.
Qed.

Lemma granted_snoc_fresh unlocked name (rules : list (string * string * option bool)) :
  name ∉ rule_name <$> rules ->
  granted (unlocked ++ [name]) rules = granted unlocked rules.
Proof.
  induction rules as [|r rules IH]; intros Hfresh; [reflexivity|].
  rewrite fmap_cons, not_elem_of_cons in Hfresh. destruct Hfresh as [Hne Hfresh].
  rewrite !granted_cons, IH by exact Hfresh.
  destruct (decide ((rule_name r ∉ unlocked ++ [name]) /\ (snd r = Some true))) as [[H1 H2]|H1],
           (decide ((rule_name r ∉ unlocked) /\ (snd r = Some true))) as [[H3 H4]|H3];
    try reflexivity.
  - exfalso. apply H3. split; [|exact H2].
    intros Hin. apply H1. apply elem_of_app. by left.
  - exfalso. apply H1. split; [|exact H4].
    intros [Hin|Hin%list_elem_of_singleton]%elem_of_app; [by apply H3|].
    by apply Hne.
Qed.

(** The loop of [check_achievements] grants the rules of [granted], in the
    order of the rule list. *)
Lemma fold_check_rule (rules : list (string * string * option bool)) unlocked new :
  NoDup (rule_name <$> rules) ->
  fold_left check_rule rules (unlocked, new)
  = (unlocked ++ (fst <$> granted unlocked rules), new ++ granted unlocked rules).
Proof.
  revert unlocked new.
  induction rules as [|[[name desc] cond] rules IH]; intros unlocked new Hnd.
  { simpl. by rewrite !app_nil_r. }
  rewrite fmap_cons, NoDup_cons in Hnd. destruct Hnd as [Hfresh Hnd].
  rewrite granted_cons. cbn [fold_left check_rule fst snd rule_name].
  case_bool_decide as Hin.
  - rewrite decide_False by (intros [H _]; by apply H).
    by apply IH.
  - destruct cond as [[|]|].
    + rewrite decide_True by done.
      rewrite IH by exact Hnd.
      rewrite granted_snoc_fresh by exact Hfresh.
      rewrite fmap_cons. cbn [fst rule_name]. by rewrite <- !app_assoc.
    + rewrite decide_False by (intros [_ H]; discriminate H).
      by apply IH.
    + rewrite decide_False by (intros [_ H]; discriminate H).
      by apply IH.
Qed.

Lemma achievement_names_NoDup E p a sc t :
  NoDup (rule_name <$> achievement_list E p a sc t).
Proof.
  unfold achievement_list. cbn [fmap list_fmap fst rule_name].
  apply (bool_decide_unpack _). vm_compute. exact I.
Qed.

Lemma check_achievements_granted E p a sc t :
  let old := default [] (achievements E !! p) in
  let new := granted old (achievement_list E p a sc t) in
  check_achievements E p a sc t
  = (with_achievements E (<[p := old ++ (fst <$> new)]> (achievements E)), new).
Proof.
  intros old new. unfold check_achievements.
  rewrite fold_check_rule by apply achievement_names_NoDup.
  reflexivity.
Qed.


(** ** Guessing: the round in play *)

Lemma round_in_play_active s0 env s r :
  round_in_play s0 env = Some (s, r) -> active_round s = Some r.
Proof.
  unfold round_in_play, open_round.
  destruct (active_round s0) as [r0|] eqn:Hr.
  - intros [= <- <-]. exact Hr.
  - destruct (randint 1 (max_number s0) (secret_seed (implicit_round env)));
      [|discriminate].
    by intros [= <- <-].
Qed.

Lemma round_in_play_max s0 env s r :
  round_in_play s0 env = Some (s, r) -> max_number s = max_number s0.
Proof.
  unfold round_in_play, open_round.
  destruct (active_round s0) as [r0|].
  - by intros [= <- <-].
  - destruct (randint 1 (max_number s0) (secret_seed (implicit_round env)));
      [|discriminate].
    by intros [= <- <-].
Qed.

Lemma make_guess_in_play E p s0 env s r guess :
  sessions E !! p = Some s0 ->
  round_in_play s0 env = Some (s, r) ->
  make_guess E p guess env = guess_in_round (engine_in_play E p s0 env) p s r guess env
  /\ sessions (engine_in_play E p s0 env) !! p = Some s
  /\ stats (engine_in_play E p s0 env) = stats E
  /\ achievements (engine_in_play E p s0 env) = achievements E.
Proof.
  intros Hs Hplay. unfold make_guess, engine_in_play. rewrite Hs.
  unfold round_in_play in Hplay.
  destruct (active_round s0) as [r0|].
  - injection Hplay as <- <-. done.
  - destruct (open_round s0 (implicit_round env)) as [s' [r'|]]; [|discriminate].
    injection Hplay as <- <-. cbn [fst].
    by rewrite lookup_store_session.
Qed.

Lemma guess_in_round_finished E p s r guess env :
  active r = false -> guess_in_round E p s r guess env = (E, RError ErrRoundFinished).
Proof. intros Ha. unfold guess_in_round. by rewrite Ha. Qed.

Lemma guess_in_round_invalid E p s r guess env :
  active r = true ->
  timed_out r (check_clock env) = false ->
  turned_down guess (max_number s) ->
  exists e, guess_in_round E p s r guess env = (E, RError e)
            /\ error_kind e = InvalidGuess.
Proof.
  intros Ha Ht Hbad. unfold guess_in_round, turned_down in *. rewrite Ha, Ht. simpl.
  destruct (Py.int guess) as [g|]; [|by exists ErrNotInteger].
  exists (ErrOutOfRange (max_number s)).
  destruct (Z.ltb_spec g 1), (Z.gtb_spec g (max_number s)); simpl; try done; lia.
Qed.

Lemma guess_in_round_timeout E p s r guess env limit :
  active r = true ->
  r_time_limit r = Some limit ->
  limit <> 0 ->
  (inject_Z limit < check_clock env - start_time r)%Q ->
  guess_in_round E p s r guess env
  = (update_player_stats
       (store_session E p (append_score (set_active_round s (Some (set_active r false))) 0))
       p (attempts r) false 0,
     RTimeout ("The number was " +:+ Py.fmt (secret_number r))).
Proof.
  intros Ha Hl Hnz Hlate. unfold guess_in_round, timed_out. rewrite Ha, Hl. simpl.
  destruct (Z.eqb_spec limit 0) as [|_]; [done|]. simpl.
  unfold Py.Qltb.
  destruct (Qle_bool (check_clock env - start_time r) (inject_Z limit)) eqn:Hle;
    [|reflexivity].
  apply Qle_bool_iff in Hle. exfalso. by apply (Qlt_not_le _ _ Hlate).
Qed.

(** ** Timeout *)

(** C6. A guess on an active round whose time limit has been exceeded
    marks the round inactive, appends the score 0 to the session's round
    scores, records a loss for the player (one more game played, no more
    game won, nothing added to the scores) and answers with the timeout
    response whose message shows the secret number; every later guess of
    the player is refused because the round is finished. *)
Theorem timeout_is_terminal E p s0 s r guess env limit :
  sessions E !! p = Some s0 ->
  round_in_play s0 env = Some (s, r) ->
  active r = true ->
  r_time_limit r = Some limit ->
  limit <> 0 ->
  (inject_Z limit < check_clock env - start_time r)%Q ->
  exists E' s' r',
    make_guess E p guess env
      = (E', RTimeout ("The number was " +:+ Py.fmt (secret_number r)))
    /\ sound (snd (make_guess E p guess env)) = Some "elimination"
    /\ sessions E' !! p = Some s' /\ active_round s' = Some r' /\ active r' = false
    /\ round_scores s' = round_scores s ++ [0]
    /\ games_played (_ensure_player_stats E' p)
       = games_played (_ensure_player_stats E p) + 1
    /\ games_won (_ensure_player_stats E' p) = games_won (_ensure_player_stats E p)
    /\ total_attempts (_ensure_player_stats E' p)
       = total_attempts (_ensure_player_stats E p) + attempts r
    /\ total_score (_ensure_player_stats E' p)
       = total_score (_ensure_player_stats E p) + 0
    /\ best_of E' p = best_of E p
    /\ (forall guess' env',
          make_guess E' p guess' env' = (E', RError ErrRoundFinished))
    /\ error_kind ErrRoundFinished = RoundFinished.
Proof.
  intros Hs Hplay Ha Hl Hnz Hlate.
  destruct (make_guess_in_play E p s0 env s r guess Hs Hplay)
    as (Hmg & Hs1 & Hst & Hach).
  rewrite Hmg, (guess_in_round_timeout _ p s r guess env limit Ha Hl Hnz Hlate).
  set (r' := set_active r false).
  set (s' := append_score (set_active_round s (Some r')) 0).
  set (E1 := engine_in_play E p s0 env) in *.
  exists (update_player_stats (store_session E1 p s') p (attempts r) false 0), s', r'.
  assert (Hens : _ensure_player_stats (store_session E1 p s') p = _ensure_player_stats E p).
  { unfold _ensure_player_stats. by rewrite stats_store_session, Hst. }
  split; [reflexivity|]. split; [reflexivity|].
  split; [rewrite sessions_update_player_stats; apply lookup_store_session|].
  split; [reflexivity|]. split; [reflexivity|]. split; [reflexivity|].
  unfold best_of.
  unfold _ensure_player_stats at 1 3 5 7 9.
  unfold update_player_stats; cbn [stats with_stats].
  rewrite lookup_insert_eq, Hens. cbn.
  repeat (split; [reflexivity|]).
  split; [|reflexivity].
  intros guess' env'. unfold make_guess. cbn [sessions with_stats store_session with_sessions].
  rewrite lookup_insert_eq. cbn [active_round s' append_score set_active_round].
  by apply guess_in_round_finished.
Qed.

(** ** Guesses that are turned down *)

Lemma count_guess_fields r g :
  secret_number (count_guess r g) = secret_number r
  /\ attempts (count_guess r g) = attempts r + 1
  /\ start_time (count_guess r g) = start_time r
  /\ extra_hints (count_guess r g) = extra_hints r
  /\ powerup_used (count_guess r g) = powerup_used r
  /\ double_score (count_guess r g) = double_score r
  /\ active (count_guess r g) = active r
  /\ closest_distance (count_guess r g)
     = Z.min (closest_distance r) (Z.abs (g - secret_number r)).
Proof.
  unfold count_guess. cbn.
  destruct (Z.ltb_spec (Z.abs (g - secret_number r)) (closest_distance r));
    cbn; repeat split; lia.
Qed.

Lemma guess_in_round_valid E p s r guess g env :
  active r = true ->
  timed_out r (check_clock env) = false ->
  Py.int guess = Some g ->
  1 <= g <= max_number s ->
  guess_in_round E p s r guess env
  = let rnd2 := count_guess r g in
    if g =? secret_number r then
      let rnd3 := set_active rnd2 false in
      let elapsed_time := (win_clock env - start_time r)%Q in
      let total_score := round_score s rnd3 elapsed_time in
      let E2 := update_player_stats
                  (store_session E p
                     (append_score (set_active_round s (Some rnd3)) total_score))
                  p (attempts r + 1) true total_score in
      (fst (check_achievements E2 p (attempts r + 1) total_score elapsed_time),
       RCorrect total_score (attempts r + 1) elapsed_time
                (snd (check_achievements E2 p (attempts r + 1) total_score elapsed_time)))
    else
      let rnd3 := fst (take_hint s rnd2) in
      (store_session E p (set_active_round s (Some rnd3)),
       RWrong (if g <? secret_number r then "too_low" else "too_high")
              (attempts rnd3) (snd (take_hint s rnd2))
              (if g <? secret_number r then "Guess higher" else "Guess lower")).
Proof.
  intros Ha Ht Hg Hrange. unfold guess_in_round. rewrite Ha, Ht, Hg. simpl negb. cbv iota.
  destruct (Z.ltb_spec g 1); [lia|]. destruct (Z.gtb_spec g (max_number s)); [lia|].
  cbn [orb]. cbv zeta.
  destruct (count_guess_fields r g) as (Hsec & Hatt & Hst & _).
  rewrite Hsec.
  destruct (g =? secret_number r).
  - cbn [attempts start_time set_active]. rewrite Hatt, Hst.
    by destruct (check_achievements _ _ _ _ _) as [E3 new].
  - destruct (take_hint s (count_guess r g)) as [r3 hints] eqn:Hh. cbn [fst snd].
    assert (secret_number r3 = secret_number r) as ->.
    { unfold take_hint in Hh.
      destruct (_ && _) in Hh; [destruct (get_hint _ _ _) in Hh|];
        injection Hh as <- <-; exact Hsec. }
    by destruct (g <? secret_number r).
Qed.



(** ** Scoring *)

Lemma trunc_floor (q : Q) : (0 <= q)%Q -> Py.trunc q = Qfloor q.
Proof.
  destruct q as [n d]. unfold Qle, Py.trunc, Qfloor; simpl. intros H.
  apply Z.quot_div_nonneg; lia.
Qed.

Lemma Qltb_dec (x y : Q) (A : Type) (a b : A) :
  (if Py.Qltb x y then a else b) = (if Qlt_le_dec x y then a else b).
Proof.
  unfold Py.Qltb.
  destruct (Qlt_le_dec x y) as [Hlt|Hle].
  - destruct (Qle_bool y x) eqn:Hb; [|reflexivity].
    apply Qle_bool_iff in Hb. exfalso. by apply (Qlt_not_le _ _ Hlt).
  - apply Qle_bool_iff in Hle. by rewrite Hle.
Qed.

Lemma Qfloor_nonneg (q : Q) : (0 <= q)%Q -> 0 <= Qfloor q.
Proof. intros H. apply (Qfloor_resp_le 0 q) in H. exact H. Qed.



(** ** Hints *)

Lemma parity_hint_cases sn :
  parity_hint sn = "The number is even" \/ parity_hint sn = "The number is odd".
Proof. unfold parity_hint. destruct (_ =? _); auto. Qed.

Lemma quarter_hint_cases sn mx :
  quarter_hint sn mx = "The number is in the first quarter of the range"
  \/ quarter_hint sn mx = "The number is in the second quarter of the range"
  \/ quarter_hint sn mx = "The number is in the third quarter of the range"
  \/ quarter_hint sn mx = "The number is in the fourth quarter of the range".
Proof. unfold quarter_hint. repeat destruct (_ <=? _); auto. Qed.

Lemma parity_not_quarter sn sn' mx : parity_hint sn <> quarter_hint sn' mx.
Proof.
  destruct (parity_hint_cases sn) as [->| ->],
           (quarter_hint_cases sn' mx) as [->|[->|[->| ->]]]; discriminate.
Qed.

Lemma divisor_not_parity d sn : divisor_hint d <> parity_hint sn.
Proof.
  unfold divisor_hint. destruct (parity_hint_cases sn) as [->| ->];
    cbn; discriminate.
Qed.

Lemma divisor_not_quarter d sn mx : divisor_hint d <> quarter_hint sn mx.
Proof.
  unfold divisor_hint. destruct (quarter_hint_cases sn mx) as [->|[->|[->| ->]]];
    cbn; discriminate.
Qed.

Lemma divisor_hint_inj d d' : divisor_hint d = divisor_hint d' -> d = d'.
Proof.
  unfold divisor_hint, Py.fmt. intros H.
  apply (inj (String.append "The number is divisible by ")) in H.
  by apply (inj pretty) in H.
Qed.

Lemma first_divisor_357 sn d :
  first_divisor sn [3; 5; 7] = Some d
  <-> (d = 3 /\ sn mod 3 = 0)
      \/ (d = 5 /\ sn mod 3 <> 0 /\ sn mod 5 = 0)
      \/ (d = 7 /\ sn mod 3 <> 0 /\ sn mod 5 <> 0 /\ sn mod 7 = 0).
Proof.
  cbn [first_divisor].
  destruct (Z.eqb_spec (sn mod 3) 0), (Z.eqb_spec (sn mod 5) 0),
           (Z.eqb_spec (sn mod 7) 0);
    split; try (intros [= <-]); try (intros [[-> ?]|[[-> ?]|[-> ?]]]);
    try discriminate; try tauto; try (f_equal; lia); intuition lia.
Qed.

(** What [get_hint] lists, by the number of attempts. *)
Lemma get_hint_thresholds sn mx a :
  (parity_hint sn ∈ get_hint sn mx a <-> 3 <= a)
  /\ (quarter_hint sn mx ∈ get_hint sn mx a <-> 5 <= a)
  /\ (forall d, divisor_hint d ∈ get_hint sn mx a
                <-> 7 <= a /\ first_divisor sn [3; 5; 7] = Some d)
  /\ (3 <= a -> head (get_hint sn mx a) = Some (parity_hint sn))
  /\ (a < 3 -> get_hint sn mx a = []).
Proof.
  unfold get_hint.
  destruct (Z.geb_spec a 3), (Z.geb_spec a 5), (Z.geb_spec a 7); try lia;
    destruct (first_divisor sn [3; 5; 7]) as [d0|] eqn:Hd;
    cbn [app]; (split; [|split; [|split; [|split]]]);
    try (intros d); rewrite ?elem_of_cons, ?elem_of_nil;
    try (split; [intros H'|intros H']); try done; try lia;
    try (left; reflexivity); try (right; left; reflexivity);
    repeat match goal with
      | H : _ \/ _ |- _ => destruct H as [H|H]
      | H : _ /\ _ |- _ => destruct H
      | H : parity_hint _ = quarter_hint _ _ |- _ => by apply parity_not_quarter in H
      | H : quarter_hint _ _ = parity_hint _ |- _ =>
          symmetry in H; by apply parity_not_quarter in H
      | H : divisor_hint _ = parity_hint _ |- _ => by apply divisor_not_parity in H
      | H : divisor_hint _ = quarter_hint _ _ |- _ => by apply divisor_not_quarter in H
      | H : divisor_hint _ = divisor_hint _ |- _ => apply divisor_hint_inj in H; subst
      | H : False |- _ => destruct H
      end;
    try done; try lia.
  all: try (split; [lia|done]).
  all: match goal with H : Some _ = Some _ |- _ => injection H as -> end; tauto.
Qed.

Lemma take_hint_spec s r :
  take_hint s r
  = if decide (0 < extra_hints r /\ 3 <= attempts r)
    then (set_extra_hints r (extra_hints r - 1), [parity_hint (secret_number r)])
    else (r, []).
Proof.
  unfold take_hint.
  destruct (get_hint_thresholds (secret_number r) (max_number s) (attempts r))
    as (_ & _ & _ & Hhead & Hnone).
  destruct (decide (0 < extra_hints r /\ 3 <= attempts r)) as [[Hb Ha]|Hno].
  - destruct (Z.gtb_spec (extra_hints r) 1), (Z.gtb_spec (extra_hints r) 0); try lia.
    + destruct (Z.geb_spec (attempts r) 2); [|lia]. cbn [andb].
      specialize (Hhead Ha). destruct (get_hint _ _ _); [discriminate|].
      by injection Hhead as ->.
    + destruct (Z.geb_spec (attempts r) 3); [|lia]. cbn [andb].
      specialize (Hhead Ha). destruct (get_hint _ _ _); [discriminate|].
      by injection Hhead as ->.
  - destruct (Z.gtb_spec (extra_hints r) 0); [|by rewrite andb_false_r].
    assert (attempts r < 3) as Hlow by lia.
    rewrite (Hnone Hlow). by destruct (_ && _).
Qed.



(** ** Rounds played and rounds in total *)

Lemma sample_engine_reached : run (new_engine ∅ ∅) sample_ops = sample_engine.
Proof. vm_compute. reflexivity. Qed.

Lemma sample_engine_2_reached :
  run sample_engine [OpGuess "alice" (Py.Int 10) sample_guess_env;
                     OpGuess "alice" (Py.Str "40") sample_guess_env]
  = sample_engine_2.
Proof. vm_compute. reflexivity. Qed.

Lemma timed_engine_reached : run (new_engine ∅ ∅) timed_ops = timed_engine.
Proof. vm_compute. reflexivity. Qed.












Lemma start_route_reachable E0 E p mode d c env renv :
  engine_ok E0 -> reachable E0 E -> reachable E0 (start_route E p mode d c env renv).
Proof.
  intros H0 Hreach. unfold start_route.
  apply (reach_step E0 _ (OpStartRound p renv)).
  - by apply (reach_step E0 E (OpStart p mode d c env)).
  - cbn [rounds_left].
    destruct (start_game_session E p mode d c env)
      as (msg & s & -> & _ & Htot & Hpl & _).
    cbn [fst]. rewrite lookup_store_session, Hpl, Htot.
    by destruct (String.eqb mode "2").
Qed.


(** ** The theorems on the sample plays *)



Lemma timeout_is_terminal_witness :
  exists E' s' r',
    make_guess timed_engine "bob" (Py.Int 7) late_guess_env
      = (E', RTimeout "The number was 25")
    /\ sound (snd (make_guess timed_engine "bob" (Py.Int 7) late_guess_env))
       = Some "elimination"
    /\ sessions E' !! "bob" = Some s' /\ active_round s' = Some r' /\ active r' = false
    /\ round_scores s' = [] ++ [0]
    /\ games_played (_ensure_player_stats E' "bob")
       = games_played (_ensure_player_stats timed_engine "bob") + 1
    /\ games_won (_ensure_player_stats E' "bob")
       = games_won (_ensure_player_stats timed_engine "bob")
    /\ total_attempts (_ensure_player_stats E' "bob")
       = total_attempts (_ensure_player_stats timed_engine "bob") + 0
    /\ total_score (_ensure_player_stats E' "bob")
       = total_score (_ensure_player_stats timed_engine "bob") + 0
    /\ best_of E' "bob" = best_of timed_engine "bob"
    /\ (forall guess' env',
          make_guess E' "bob" guess' env' = (E', RError ErrRoundFinished))
    /\ error_kind ErrRoundFinished = RoundFinished.
Proof.
  apply (timeout_is_terminal timed_engine "bob" timed_session timed_session
                             timed_round (Py.Int 7) late_guess_env 60).
  - vm_compute. reflexivity.
  - reflexivity.
  - reflexivity.
  - reflexivity.
  - lia.
  - vm_compute. reflexivity.
Defined.




(** ** Further checks on concrete inputs *)

Example int_examples :
  Py.int (Py.Str " 42 ") = Some 42
  /\ Py.int (Py.Str "-1_000") = Some (-1000)
  /\ Py.int (Py.Str "4_") = None
  /\ Py.int (Py.Str "abc") = None
  /\ Py.int (Py.Str "") = None
  /\ Py.int (Py.Float (-5 # 2)) = Some (-2)
  /\ Py.int (Py.Bool true) = Some 1
  /\ Py.int Py.None_ = None.
Proof. repeat split; reflexivity. Qed.

Example get_hint_examples :
  get_hint 21 100 2 = []
  /\ get_hint 21 100 3 = ["The number is odd"]
  /\ get_hint 21 100 5
     = ["The number is odd"; "The number is in the first quarter of the range"]
  /\ get_hint 21 100 7
     = ["The number is odd"; "The number is in the first quarter of the range";
        "The number is divisible by 3"]
  /\ get_hint 88 100 7
     = ["The number is even"; "The number is in the fourth quarter of the range"].
Proof. repeat split; reflexivity. Qed.

(** The scenario of the specification: tier 1, secret 25, first guess 25,
    twelve seconds into the round: 99 + 38 + 20. *)
Example first_guess_wins :
  exists E' new_achs,
    make_guess sample_engine "alice" (Py.Int 25) sample_guess_env
    = (E', RCorrect 157 1 (12 # 1) new_achs)
    /\ length new_achs = 4%nat
    /\ stats E' !! "alice" = Some (mkStats 1 1 1 157 157).
Proof. eexists _, _. repeat split; vm_compute; reflexivity. Qed.

(** A player without statistics: the two rules that read [games_won] raise
    and are passed over, the other rules are judged as usual. *)
Example raising_rules_are_skipped :
  let new := snd (check_achievements (new_engine ∅ ∅) "carol" 1 160 5) in
  length new = 4%nat /\ first_blood ∉ (fst <$> new).
Proof.
  split; [vm_compute; reflexivity|].
  apply (bool_decide_unpack _). vm_compute. exact I.
Qed.

(** A wrong guess after the time limit is a timeout, whatever the guess. *)
Example late_guess_times_out :
  snd (make_guess timed_engine "bob" (Py.Str "abc") late_guess_env)
  = RTimeout "The number was 25".
Proof. vm_compute. reflexivity. Qed.

(** * Further properties of the engine *)

(** ** The branches of a guess *)

Lemma run_invariant (P : GameEngine -> Prop) :
  (forall E op, P E -> P (step E op)) ->
  forall ops E, P E -> P (run E ops).
Proof.
  intros Hstep ops. unfold run.
  induction ops as [|op ops IH]; intros E HE; [exact HE|].
  cbn [fold_left]. apply IH. by apply Hstep.
Qed.

Lemma run_app E ops1 ops2 : run E (ops1 ++ ops2) = run (run E ops1) ops2.
Proof. unfold run. apply fold_left_app. Qed.

(** The five ways in which [make_guess] deals with a guess on a round. *)
Lemma guess_in_round_cases E p s r guess env :
  (active r = false
   /\ guess_in_round E p s r guess env = (E, RError ErrRoundFinished))
  \/ (active r = true /\ timed_out r (check_clock env) = true
      /\ guess_in_round E p s r guess env
         = (timeout_state E p s r,
            RTimeout ("The number was " +:+ Py.fmt (secret_number r))))
  \/ (active r = true /\ timed_out r (check_clock env) = false
      /\ turned_down guess (max_number s)
      /\ exists e, guess_in_round E p s r guess env = (E, RError e)
                   /\ error_kind e = InvalidGuess)
  \/ (active r = true /\ timed_out r (check_clock env) = false
      /\ exists g, Py.int guess = Some g /\ 1 <= g <= max_number s
         /\ g = secret_number r
         /\ guess_in_round E p s r guess env
            = (fst (check_achievements (win_state E p s r g env) p (attempts r + 1)
                      (win_score s r g env) (win_clock env - start_time r)),
               RCorrect (win_score s r g env) (attempts r + 1)
                 (win_clock env - start_time r)
                 (snd (check_achievements (win_state E p s r g env) p (attempts r + 1)
                         (win_score s r g env) (win_clock env - start_time r)))))
  \/ (active r = true /\ timed_out r (check_clock env) = false
      /\ exists g, Py.int guess = Some g /\ 1 <= g <= max_number s
         /\ g <> secret_number r
         /\ guess_in_round E p s r guess env
            = (store_session E p (set_active_round s (Some (missed_round s r g))),
               RWrong (if g <? secret_number r then "too_low" else "too_high")
                 (attempts r + 1) (snd (take_hint s (count_guess r g)))
                 (if g <? secret_number r then "Guess higher" else "Guess lower"))).
Proof.
  destruct (active r) eqn:Ha.
  2:{ left. split; [reflexivity|]. by apply guess_in_round_finished. }
  right.
  destruct (timed_out r (check_clock env)) eqn:Ht.
  { left. split; [reflexivity|]. split; [reflexivity|].
    unfold guess_in_round. by rewrite Ha, Ht. }
  right.
  destruct (Py.int guess) as [g|] eqn:Hg.
  2:{ left. split; [reflexivity|]. split; [reflexivity|].
      assert (Hbad : turned_down guess (max_number s)).
      { unfold turned_down. by rewrite Hg. }
      split; [exact Hbad|]. by apply guess_in_round_invalid. }
  destruct (decide (1 <= g <= max_number s)) as [Hrange|Hout].
  2:{ left. split; [reflexivity|]. split; [reflexivity|].
      assert (Hbad : turned_down guess (max_number s)).
      { unfold turned_down. rewrite Hg. lia. }
      split; [exact Hbad|]. by apply guess_in_round_invalid. }
  right.
  rewrite (guess_in_round_valid E p s r guess g env Ha Ht Hg Hrange). cbv zeta.
  destruct (Z.eqb_spec g (secret_number r)) as [Heq|Hne].
  - left. split; [reflexivity|]. split; [reflexivity|].
    exists g. repeat (split; [done|]). reflexivity.
  - right. split; [reflexivity|]. split; [reflexivity|].
    exists g. repeat (split; [done|]).
    unfold missed_round.
    assert (attempts (take_hint s (count_guess r g)).1 = attempts r + 1) as ->;
      [|reflexivity].
    rewrite take_hint_spec.
    destruct (decide _); cbn [fst attempts set_extra_hints]; apply count_guess_fields.
Qed.

(** ** Well-formed sessions *)

Lemma count_guess_frame r g :
  r_time_limit (count_guess r g) = r_time_limit r
  /\ round_num (count_guess r g) = round_num r
  /\ offered_powerup (count_guess r g) = offered_powerup r.
Proof. unfold count_guess. cbn. by destruct (_ <? _). Qed.

Lemma missed_round_fields s r g :
  secret_number (missed_round s r g) = secret_number r
  /\ attempts (missed_round s r g) = attempts r + 1
  /\ closest_distance (missed_round s r g)
     = Z.min (closest_distance r) (Z.abs (g - secret_number r))
  /\ extra_hints (missed_round s r g)
     = (if decide (0 < extra_hints r /\ 3 <= attempts r + 1)
        then extra_hints r - 1 else extra_hints r)
  /\ powerup_used (missed_round s r g) = powerup_used r
  /\ double_score (missed_round s r g) = double_score r
  /\ active (missed_round s r g) = active r
  /\ r_time_limit (missed_round s r g) = r_time_limit r
  /\ start_time (missed_round s r g) = start_time r
  /\ round_num (missed_round s r g) = round_num r.
Proof.
  destruct (count_guess_fields r g) as (Hs & Ha & Hst & Hx & Hp & Hd & Hact & Hc).
  destruct (count_guess_frame r g) as (Hl & Hn & _).
  unfold missed_round. rewrite take_hint_spec, Ha, Hx.
  destruct (decide _); cbn; by rewrite ?Hs, ?Ha, ?Hst, ?Hx, ?Hp, ?Hd, ?Hact, ?Hc, ?Hl, ?Hn.
Qed.

Lemma won_round_fields r g :
  secret_number (won_round r g) = secret_number r
  /\ attempts (won_round r g) = attempts r + 1
  /\ closest_distance (won_round r g)
     = Z.min (closest_distance r) (Z.abs (g - secret_number r))
  /\ extra_hints (won_round r g) = extra_hints r
  /\ powerup_used (won_round r g) = powerup_used r
  /\ double_score (won_round r g) = double_score r
  /\ active (won_round r g) = false
  /\ r_time_limit (won_round r g) = r_time_limit r
  /\ round_num (won_round r g) = round_num r.
Proof.
  destruct (count_guess_fields r g) as (Hs & Ha & Hst & Hx & Hp & Hd & Hact & Hc).
  destruct (count_guess_frame r g) as (Hl & Hn & _).
  unfold won_round. cbn. by rewrite ?Hs, ?Ha, ?Hst, ?Hx, ?Hp, ?Hd, ?Hact, ?Hc, ?Hl, ?Hn.
Qed.

Lemma round_wf_finished s r : round_wf s r -> round_wf s (set_active r false).
Proof. intros [? ? ? ? ? ? ? _]. split; cbn; try done. Qed.

Lemma round_wf_won s r g :
  round_wf s r -> round_wf s (won_round r g).
Proof.
  intros [Hsec Hatt Hcl Hpu Hdb Hlim Hbud _].
  destruct (won_round_fields r g) as (Es & Ea & Ec & Ex & Ep & Ed & Eact & El & _).
  split; rewrite ?Es, ?Ea, ?Ec, ?Ex, ?Ep, ?Ed, ?El; try done; try lia;
    try (rewrite Eact; discriminate).
Qed.

Lemma round_wf_missed s r g :
  round_wf s r -> active r = true -> g <> secret_number r ->
  round_wf s (missed_round s r g).
Proof.
  intros [Hsec Hatt Hcl Hpu Hdb Hlim Hbud Hlive] Ha Hne.
  destruct (Hlive Ha) as [Hc1 Hx].
  destruct (missed_round_fields s r g)
    as (Es & Ea & Ec & Ex & Ep & Ed & Eact & El & _).
  assert (Hx' : extra_hints (missed_round s r g)
                = if attempts r + 1 <? 3 then 1 else 0).
  { rewrite Ex, Hx. clear Ex.
    destruct (Z.ltb_spec (attempts r) 3), (Z.ltb_spec (attempts r + 1) 3);
      destruct (decide _); lia. }
  split; rewrite ?Es, ?Ea, ?Ec, ?Ep, ?Ed, ?El; try done; try lia.
  all: rewrite ?Hx'.
  all: try (destruct (attempts r + 1 <? 3); auto; fail).
  all: try (intros _; split; [lia|reflexivity]).
Qed.

Lemma round_wf_open s env s' r :
  1 <= max_number s ->
  open_round s env = (s', Some r) ->
  max_number s' = max_number s /\ difficulty_bonus s' = difficulty_bonus s
  /\ time_limit s' = time_limit s /\ rounds_total s' = rounds_total s
  /\ rounds_played s' = rounds_played s + 1
  /\ round_scores s' = round_scores s /\ active_round s' = Some r
  /\ round_num r = rounds_played s + 1 /\ active r = true /\ attempts r = 0
  /\ secret_number r = 1 + secret_seed env mod max_number s
  /\ round_wf s r.
Proof.
  intros Hmx. unfold open_round, randint.
  destruct (Z.ltb_spec (max_number s) 1); [lia|].
  intros [= <- <-]. cbn. repeat (split; [first [reflexivity | f_equal; lia]|]).
  pose proof (Z.mod_pos_bound (secret_seed env) (max_number s)).
  replace (max_number s - 1 + 1) with (max_number s) by lia.
  split; [reflexivity|].
  specialize (H0 ltac:(lia)).
  split; cbn; try done; try lia; auto.
Qed.

Lemma open_round_Some s env :
  1 <= max_number s -> exists s' r, open_round s env = (s', Some r).
Proof.
  intros Hmx. unfold open_round, randint.
  destruct (Z.ltb_spec (max_number s) 1); [lia|]. by eexists _, _.
Qed.

Lemma session_wf_update s s' r' :
  session_wf s ->
  max_number s' = max_number s ->
  difficulty_bonus s' = difficulty_bonus s ->
  time_limit s' = time_limit s ->
  rounds_total s' = rounds_total s ->
  0 <= rounds_played s' ->
  Forall (fun x => 0 <= x) (round_scores s') ->
  active_round s' = Some r' ->
  round_wf s r' ->
  session_wf s'.
Proof.
  intros [Hmx Hb Hl Ht Hp Hsc Hr] Em Eb El Et Hp' Hsc' Er' [? ? ? ? ? ? ? ?].
  split; rewrite ?Em, ?Eb, ?El, ?Et; try done.
  intros r0. rewrite Er'. intros [= <-].
  split; rewrite ?Em, ?El; done.
Qed.

Lemma trunc_nonneg (q : Q) : (0 <= q)%Q -> 0 <= Py.trunc q.
Proof. intros H. rewrite trunc_floor by exact H. by apply Qfloor_nonneg. Qed.

Lemma session_wf_bonus_nonneg s : session_wf s -> (0 <= difficulty_bonus s)%Q.
Proof. intros [_ [->|[->|[->| ->]]] _ _ _ _ _]; discriminate. Qed.

Lemma round_score_nonneg s r t :
  (0 <= difficulty_bonus s)%Q -> 0 <= round_score s r t.
Proof.
  intros Hb. unfold round_score.
  assert (0 <= Py.trunc (inject_Z (Z.max 0 (100 - attempts r)) * difficulty_bonus s)).
  { apply trunc_nonneg, Qmult_le_0_compat; [|exact Hb].
    change 0%Q with (inject_Z 0). rewrite <- Zle_Qle. lia. }
  destruct (Py.Qltb _ _), (_ <? _), (Py.truthy_str _), (double_score r); lia.
Qed.

Lemma sessions_wf_store E p s :
  sessions_wf E -> session_wf s -> sessions_wf (store_session E p s).
Proof.
  intros HE Hs q s'. unfold store_session; cbn [sessions with_sessions].
  destruct (decide (p = q)) as [->|Hne].
  - rewrite lookup_insert_eq. by intros [= <-].
  - rewrite lookup_insert_ne by exact Hne. apply HE.
Qed.

Lemma sessions_wf_same E E' :
  sessions E' = sessions E -> sessions_wf E -> sessions_wf E'.
Proof. intros Heq HE q s. rewrite Heq. apply HE. Qed.

Lemma guess_in_round_sessions_wf E p s r guess env :
  sessions_wf E -> session_wf s -> active_round s = Some r ->
  sessions_wf (fst (guess_in_round E p s r guess env)).
Proof.
  intros HE Hs Hr.
  pose proof (swf_round s Hs r Hr) as Hrw.
  pose proof (swf_scores s Hs) as Hsc.
  pose proof (swf_played s Hs) as Hpl.
  destruct (guess_in_round_cases E p s r guess env)
    as [[_ ->]|[(_ & _ & ->)|[(_ & _ & _ & e & -> & _)
       |[(Ha & _ & g & _ & Hrange & Heq & ->)|(Ha & _ & g & _ & Hrange & Hne & ->)]]]];
    cbn [fst]; try exact HE.
  - unfold timeout_state.
    eapply sessions_wf_same; [apply sessions_update_player_stats|].
    apply sessions_wf_store; [exact HE|].
    eapply (session_wf_update s); try reflexivity; try done.
    + cbn. apply Forall_app. split; [exact Hsc|]. by repeat constructor.
    + by apply round_wf_finished.
  - eapply sessions_wf_same; [apply sessions_check_achievements|].
    unfold win_state.
    eapply sessions_wf_same; [apply sessions_update_player_stats|].
    apply sessions_wf_store; [exact HE|].
    eapply (session_wf_update s); try reflexivity; try done.
    + cbn. apply Forall_app. split; [exact Hsc|].
      repeat constructor. apply round_score_nonneg. by apply session_wf_bonus_nonneg.
    + by apply round_wf_won.
  - apply sessions_wf_store; [exact HE|].
    eapply (session_wf_update s); try reflexivity; try done.
    by apply round_wf_missed.
Qed.

Lemma resolve_difficulty_table d c :
  1 <= fst (_resolve_difficulty d c)
  /\ (snd (_resolve_difficulty d c) = 1%Q \/ snd (_resolve_difficulty d c) = 3 # 2
      \/ snd (_resolve_difficulty d c) = 2%Q \/ snd (_resolve_difficulty d c) = 3%Q).
Proof.
  unfold _resolve_difficulty.
  repeat (destruct (String.eqb d _); [cbn; split; [lia|auto 6]|]).
  destruct (String.eqb d _); cbn; (split; [|auto 6]); [|lia].
  destruct c as [c|]; [|lia].
  destruct (Z.eqb_spec c 0), (Z.gtb_spec c 0); cbn; lia.
Qed.

Lemma start_game_session_wf E p mode d c env :
  sessions_wf E -> sessions_wf (fst (start_game E p mode d c env)).
Proof.
  intros HE.
  destruct (start_game_session E p mode d c env)
    as (msg & s & -> & Hres & Htot & Hpl & Hact & Hsc & Hlim).
  apply sessions_wf_store; [exact HE|]. cbn [fst].
  pose proof (resolve_difficulty_table d c) as Hmx.
  rewrite <- Hres in Hmx. cbn [fst snd] in Hmx.
  destruct Hmx as [Hmx Hb].
  split; rewrite ?Htot, ?Hpl, ?Hsc, ?Hlim; try done.
  - destruct (String.eqb mode "3"); auto.
  - destruct (String.eqb mode "2"); auto.
  - rewrite Hact. discriminate.
Qed.

Lemma make_guess_cases E p guess env :
  (sessions E !! p = None
   /\ make_guess E p guess env = (E, RError ErrNoSessionForPlayer))
  \/ (exists s0, sessions E !! p = Some s0 /\ round_in_play s0 env = None
                 /\ max_number s0 < 1
                 /\ snd (make_guess E p guess env) = RRaised "ValueError")
  \/ (exists s0 s r,
        sessions E !! p = Some s0 /\ round_in_play s0 env = Some (s, r)
        /\ active_round s = Some r
        /\ sessions (engine_in_play E p s0 env) !! p = Some s
        /\ stats (engine_in_play E p s0 env) = stats E
        /\ achievements (engine_in_play E p s0 env) = achievements E
        /\ make_guess E p guess env
           = guess_in_round (engine_in_play E p s0 env) p s r guess env).
Proof.
  destruct (sessions E !! p) as [s0|] eqn:Hs.
  2:{ left. split; [reflexivity|]. unfold make_guess. by rewrite Hs. }
  right.
  destruct (round_in_play s0 env) as [[s r]|] eqn:Hplay.
  - right. exists s0, s, r.
    destruct (make_guess_in_play E p s0 env s r guess Hs Hplay) as (Hmg & Hs1 & Hst & Hach).
    pose proof (round_in_play_active _ _ _ _ Hplay). done.
  - left. exists s0. split; [reflexivity|]. split; [exact Hplay|].
    unfold round_in_play in Hplay. unfold make_guess. rewrite Hs.
    destruct (active_round s0) as [r|]; [discriminate|].
    destruct (Z_lt_dec (max_number s0) 1) as [Hlow|Hok].
    + split; [exact Hlow|].
      destruct (open_round s0 (implicit_round env)) as [s' [r|]]; [discriminate|done].
    + destruct (open_round_Some s0 (implicit_round env)) as (s' & r & Heq); [lia|].
      rewrite Heq in Hplay. discriminate.
Qed.

Lemma in_play_wf E p s0 env :
  sessions_wf E -> sessions E !! p = Some s0 ->
  exists s r,
    round_in_play s0 env = Some (s, r)
    /\ session_wf s /\ round_wf s r
    /\ max_number s = max_number s0 /\ difficulty_bonus s = difficulty_bonus s0
    /\ sessions_wf (engine_in_play E p s0 env).
Proof.
  intros HE Hs. pose proof (HE p s0 Hs) as Hwf.
  unfold round_in_play, engine_in_play.
  destruct (active_round s0) as [r|] eqn:Hr.
  - exists s0, r. split; [reflexivity|]. split; [exact Hwf|].
    split; [by apply (swf_round s0 Hwf)|]. done.
  - destruct (open_round_Some s0 (implicit_round env) (swf_max s0 Hwf))
      as (s' & r & Hopen).
    destruct (round_wf_open s0 _ s' r (swf_max s0 Hwf) Hopen)
      as (Em & Eb & El & Et & Ep & Esc & Er & _ & _ & _ & _ & Hrw).
    rewrite Hopen. cbn [fst].
    assert (Hwf' : session_wf s').
    { eapply (session_wf_update s0); try done.
      - rewrite Ep. pose proof (swf_played s0 Hwf). lia.
      - rewrite Esc. apply (swf_scores s0 Hwf). }
    exists s', r. split; [reflexivity|]. split; [exact Hwf'|].
    split; [destruct Hrw; split; rewrite ?Em, ?El; done|].
    split; [exact Em|]. split; [exact Eb|].
    by apply sessions_wf_store.
Qed.

Lemma step_sessions_wf E op : sessions_wf E -> sessions_wf (step E op).
Proof.
  intros HE. destruct op as [q m d c env|q env|q g env|q]; cbn [step].
  - by apply start_game_session_wf.
  - unfold start_round.
    destruct (sessions E !! q) as [s|] eqn:Hs; [|exact HE].
    pose proof (HE q s Hs) as Hwf.
    destruct (open_round_Some s env (swf_max s Hwf)) as (s' & r & Hopen).
    destruct (round_wf_open s _ s' r (swf_max s Hwf) Hopen)
      as (Em & Eb & El & Et & Ep & Esc & Er & _ & _ & _ & _ & Hrw).
    rewrite Hopen. cbn [fst]. apply sessions_wf_store; [exact HE|].
    eapply (session_wf_update s); try done.
    + rewrite Ep. pose proof (swf_played s Hwf). lia.
    + rewrite Esc. apply (swf_scores s Hwf).
  - destruct (make_guess_cases E q g env)
      as [[_ ->]|[(s0 & Hs & _ & Hlow & _)|(s0 & s & r & Hs & Hplay & Hr & _ & _ & _ & ->)]];
      [exact HE| |].
    + pose proof (swf_max s0 (HE q s0 Hs)). lia.
    + destruct (in_play_wf E q s0 env HE Hs) as (s' & r' & Hplay' & Hwf & _ & _ & _ & HE1).
      rewrite Hplay in Hplay'. injection Hplay' as <- <-.
      by apply guess_in_round_sessions_wf.
  - unfold end_session.
    destruct (sessions E !! q) as [s|] eqn:Hs; [|exact HE].
    cbn [fst]. intros q' s'. cbn [sessions with_sessions].
    intros [_ Hin]%lookup_delete_Some. by apply (HE q' s').
Qed.

Lemma run_sessions_wf loaded_stats loaded_achievements ops :
  sessions_wf (run (new_engine loaded_stats loaded_achievements) ops).
Proof.
  apply (run_invariant sessions_wf); [intros E op; apply step_sessions_wf|].
  intros p s. cbn. by rewrite lookup_empty.
Qed.

(** ** What every round of a running engine satisfies *)

(** X1. In every state that a new engine reaches by any sequence of
    operations, the secret of a round lies in 1..[max_number], the closest
    distance lies in 0..[max_number] and is at least 1 while the round is
    active, the attempts are not negative, the time limit of the round is
    that of its session and is absent or 60 seconds, and the multiplier of
    the session is one of 1.0, 1.5, 2.0, 3.0. *)
Theorem running_rounds_in_range loaded_stats loaded_achievements ops p s r :
  sessions (run (new_engine loaded_stats loaded_achievements) ops) !! p = Some s ->
  active_round s = Some r ->
  1 <= secret_number r <= max_number s
  /\ 0 <= closest_distance r <= max_number s
  /\ (active r = true -> 1 <= closest_distance r)
  /\ 0 <= attempts r
  /\ r_time_limit r = time_limit s
  /\ (time_limit s = None \/ time_limit s = Some 60)
  /\ (difficulty_bonus s = 1%Q \/ difficulty_bonus s = 3 # 2
      \/ difficulty_bonus s = 2%Q \/ difficulty_bonus s = 3%Q).
Proof.
  intros Hs Hr.
  pose proof (run_sessions_wf loaded_stats loaded_achievements ops p s Hs) as Hwf.
  destruct (swf_round s Hwf r Hr) as [? ? ? ? ? ? ? Hlive].
  split; [done|]. split; [done|].
  split; [intros Ha; by destruct (Hlive Ha)|].
  split; [done|]. split; [done|].
  split; [apply (swf_limit s Hwf)|apply (swf_bonus s Hwf)].
Qed.

Lemma running_rounds_in_range_witness :
  1 <= secret_number sample_round_2 <= max_number sample_session_2
  /\ 0 <= closest_distance sample_round_2 <= max_number sample_session_2
  /\ (active sample_round_2 = true -> 1 <= closest_distance sample_round_2)
  /\ 0 <= attempts sample_round_2
  /\ r_time_limit sample_round_2 = time_limit sample_session_2
  /\ (time_limit sample_session_2 = None \/ time_limit sample_session_2 = Some 60)
  /\ (difficulty_bonus sample_session_2 = 1%Q
      \/ difficulty_bonus sample_session_2 = 3 # 2
      \/ difficulty_bonus sample_session_2 = 2%Q
      \/ difficulty_bonus sample_session_2 = 3%Q).
Proof.
  apply (running_rounds_in_range ∅ ∅
           (sample_ops ++ [OpGuess "alice" (Py.Int 10) sample_guess_env;
                           OpGuess "alice" (Py.Str "40") sample_guess_env])
           "alice").
  - vm_compute. reflexivity.
  - reflexivity.
Defined.


(** ** Scores and hints of a running engine *)

Lemma win_score_wf s r g env :
  session_wf s -> round_wf s r -> active r = true -> g = secret_number r ->
  let t := (win_clock env - start_time r)%Q in
  win_score s r g env
  = Py.trunc (inject_Z (Z.max 0 (100 - (attempts r + 1))) * difficulty_bonus s)
    + (if Qlt_le_dec t (inject_Z 50) then Z.max 0 (50 - Py.trunc t) else 0)
    + 20.
Proof.
  intros Hs [_ _ _ Hpu Hdb _ _ Hlive] Ha -> t.
  destruct (Hlive Ha) as [Hc _].
  destruct (won_round_fields r (secret_number r))
    as (_ & Ea & Ec & _ & Ep & Ed & _).
  rewrite Z.sub_diag in Ec. change (Z.abs 0) with 0 in Ec.
  unfold win_score, round_score. fold t.
  rewrite Ea, Ec, Ep, Ed, Hpu, Hdb, Qltb_dec.
  replace (Z.min (closest_distance r) 0) with 0 by lia.
  cbn. lia.
Qed.

Lemma trunc_bonus_bound (b : Z) (bonus : Q) :
  0 <= b <= 99 ->
  bonus = 1%Q \/ bonus = 3 # 2 \/ bonus = 2%Q \/ bonus = 3%Q ->
  0 <= Py.trunc (inject_Z b * bonus) <= 297.
Proof.
  intros Hb [->|[->|[->| ->]]]; unfold Py.trunc; cbn;
    rewrite Z.quot_div_nonneg by lia;
    (split; [apply Z.div_pos; lia|apply Z.div_le_upper_bound; lia]).
Qed.

(** X3. In every state that a new engine reaches, a winning guess scores
    [int(max(0, 100 - attempts) * difficulty_bonus)], plus the time bonus,
    plus 20: the proximity bonus is always the full 20, and neither the
    power-up bonus of 25 nor the doubling is ever applied.  The score is at
    least 20, and at most 367 when the clock has not gone back. *)
Theorem running_win_score loaded_stats loaded_achievements ops p s0 guess env
    score n t achs :
  sessions (run (new_engine loaded_stats loaded_achievements) ops) !! p = Some s0 ->
  snd (make_guess (run (new_engine loaded_stats loaded_achievements) ops) p guess env)
  = RCorrect score n t achs ->
  score = Py.trunc (inject_Z (Z.max 0 (100 - n)) * difficulty_bonus s0)
          + (if Qlt_le_dec t (inject_Z 50) then Z.max 0 (50 - Py.trunc t) else 0)
          + 20
  /\ 1 <= n
  /\ 20 <= score
  /\ ((0 <= t)%Q -> score <= 367).
Proof.
  pose proof (run_sessions_wf loaded_stats loaded_achievements ops) as HE.
  set (E := run _ _) in *. intros Hs Hres.
  destruct (in_play_wf E p s0 env HE Hs) as (s & r & Hplay & Hwf & Hrw & _ & Hb & _).
  destruct (make_guess_in_play E p s0 env s r guess Hs Hplay) as (Hmg & _).
  rewrite Hmg in Hres.
  destruct (guess_in_round_cases (engine_in_play E p s0 env) p s r guess env)
    as [[_ Heq]|[(_ & _ & Heq)|[(_ & _ & _ & e & Heq & _)
       |[(Ha & _ & g & _ & _ & Hg & Heq)|(_ & _ & g & _ & _ & _ & Heq)]]]];
    rewrite Heq in Hres; try discriminate.
  cbn [snd] in Hres. injection Hres as <- <- <- _.
  rewrite (win_score_wf s r g env Hwf Hrw Ha Hg). cbv zeta. rewrite Hb.
  pose proof (wf_attempts s r Hrw) as Hatt.
  assert (Hd : 0 <= Py.trunc (inject_Z (Z.max 0 (100 - (attempts r + 1)))
                               * difficulty_bonus s0) <= 297).
  { apply trunc_bonus_bound; [lia|]. rewrite <- Hb. apply (swf_bonus s Hwf). }
  split; [reflexivity|]. split; [lia|].
  split; [destruct (Qlt_le_dec _ _); lia|].
  intros Ht. pose proof (trunc_nonneg _ Ht).
  destruct (Qlt_le_dec _ _); lia.
Qed.

Lemma running_win_score_witness :
  157 = Py.trunc (inject_Z (Z.max 0 (100 - 1)) * difficulty_bonus sample_session)
        + (if Qlt_le_dec (12 # 1) (inject_Z 50)
           then Z.max 0 (50 - Py.trunc (12 # 1)) else 0)
        + 20
  /\ 1 <= 1
  /\ 20 <= 157
  /\ ((0 <= 12 # 1)%Q -> 157 <= 367).
Proof.
  apply (running_win_score ∅ ∅ sample_ops "alice" sample_session (Py.Int 25)
           sample_guess_env 157 1 (12 # 1)
           (snd (check_achievements
                   (win_state sample_engine "alice" sample_session sample_round 25
                              sample_guess_env)
                   "alice" 1 157 (12 # 1)))).
  - vm_compute. reflexivity.
  - vm_compute. reflexivity.
Defined.

(** X4. In every state that a new engine reaches, the hint list of a
    guess that misses holds the even/odd hint when the guess is the third
    attempt of the round, and is empty on every other attempt: the quarter
    and the divisor hints that [get_hint] computes are never given. *)
Theorem running_hint_on_third_attempt loaded_stats loaded_achievements ops p guess env
    result n hints message :
  snd (make_guess (run (new_engine loaded_stats loaded_achievements) ops) p guess env)
  = RWrong result n hints message ->
  exists s' r',
    sessions (fst (make_guess (run (new_engine loaded_stats loaded_achievements) ops)
                              p guess env)) !! p = Some s'
    /\ active_round s' = Some r'
    /\ attempts r' = n
    /\ hints = (if n =? 3 then [parity_hint (secret_number r')] else [])
    /\ extra_hints r' = (if n <? 3 then 1 else 0).
Proof.
  pose proof (run_sessions_wf loaded_stats loaded_achievements ops) as HE.
  set (E := run _ _) in *. intros Hres.
  destruct (make_guess_cases E p guess env)
    as [[_ Heq]|[(s0 & _ & _ & _ & Heq)|(s0 & s & r & Hs & Hplay & _ & _ & _ & _ & Hmg)]].
  { rewrite Heq in Hres. discriminate. }
  { rewrite Hres in Heq. discriminate. }
  destruct (in_play_wf E p s0 env HE Hs) as (s1 & r1 & Hplay' & Hwf & Hrw & _).
  rewrite Hplay in Hplay'. injection Hplay' as <- <-.
  rewrite Hmg in Hres |- *.
  destruct (guess_in_round_cases (engine_in_play E p s0 env) p s r guess env)
    as [[_ Heq]|[(_ & _ & Heq)|[(_ & _ & _ & e & Heq & _)
       |[(_ & _ & g & _ & _ & _ & Heq)|(Ha & _ & g & _ & _ & Hne & Heq)]]]];
    rewrite Heq in Hres |- *; try discriminate.
  cbn [snd] in Hres. injection Hres as <- <- <- <-. cbn [fst].
  destruct (missed_round_fields s r g) as (Es & Ea & _ & Ex & _).
  destruct (wf_live s r Hrw Ha) as [_ Hx].
  pose proof (wf_attempts s r Hrw) as Hatt.
  exists (set_active_round s (Some (missed_round s r g))), (missed_round s r g).
  split; [apply lookup_store_session|]. split; [reflexivity|]. split; [exact Ea|].
  rewrite Es, Ex, take_hint_spec.
  destruct (count_guess_fields r g) as (Es2 & Ea2 & _ & Ex2 & _).
  rewrite Es2, Ea2, Ex2, Hx.
  destruct (Z.ltb_spec (attempts r) 3), (Z.eqb_spec (attempts r + 1) 3),
           (Z.ltb_spec (attempts r + 1) 3);
    repeat case_decide; cbn [snd]; try lia; done.
Qed.

Lemma running_hint_on_third_attempt_witness :
  exists s' r',
    sessions (fst (make_guess
                     (run (new_engine ∅ ∅)
                          (sample_ops ++ [OpGuess "alice" (Py.Int 10) sample_guess_env;
                                          OpGuess "alice" (Py.Str "40") sample_guess_env]))
                     "alice" (Py.Int 30) sample_guess_env)) !! "alice" = Some s'
    /\ active_round s' = Some r'
    /\ attempts r' = 3
    /\ ["The number is odd"] = (if 3 =? 3 then [parity_hint (secret_number r')] else [])
    /\ extra_hints r' = (if 3 <? 3 then 1 else 0).
Proof.
  apply (running_hint_on_third_attempt ∅ ∅
           (sample_ops ++ [OpGuess "alice" (Py.Int 10) sample_guess_env;
                           OpGuess "alice" (Py.Str "40") sample_guess_env])
           "alice" (Py.Int 30) sample_guess_env "too_high" 3 ["The number is odd"]
           "Guess lower").
  vm_compute. reflexivity.
Defined.

(** ** Winning, and what follows a win *)

(** X5. In every state that a new engine reaches, an active round that has
    not run out of time can be won: the guess of its secret number is
    answered with the winning response, counted as the next attempt. *)
Theorem running_round_can_be_won loaded_stats loaded_achievements ops p s r env :
  sessions (run (new_engine loaded_stats loaded_achievements) ops) !! p = Some s ->
  active_round s = Some r ->
  active r = true ->
  timed_out r (check_clock env) = false ->
  exists score achs,
    snd (make_guess (run (new_engine loaded_stats loaded_achievements) ops) p
                    (Py.Int (secret_number r)) env)
    = RCorrect score (attempts r + 1) (win_clock env - start_time r) achs.
Proof.
  pose proof (run_sessions_wf loaded_stats loaded_achievements ops) as HE.
  set (E := run _ _) in *. intros Hs Hr Ha Ht.
  pose proof (wf_secret s r (swf_round s (HE p s Hs) r Hr)) as Hrange.
  unfold make_guess. rewrite Hs, Hr.
  rewrite (guess_in_round_valid E p s r (Py.Int (secret_number r)) (secret_number r)
             env Ha Ht eq_refl Hrange).
  rewrite Z.eqb_refl. cbv zeta. cbn [snd]. by eexists _, _.
Qed.

Lemma running_round_can_be_won_witness :
  exists score achs,
    snd (make_guess (run (new_engine ∅ ∅) sample_ops) "alice"
                    (Py.Int (secret_number sample_round)) sample_guess_env)
    = RCorrect score (attempts sample_round + 1)
               (win_clock sample_guess_env - start_time sample_round) achs.
Proof.
  apply (running_round_can_be_won ∅ ∅ sample_ops "alice" sample_session sample_round
                                  sample_guess_env).
  - vm_compute. reflexivity.
  - reflexivity.
  - reflexivity.
  - reflexivity.
Defined.

(** X6. A win closes the round for good: once [make_guess] has answered
    with the winning response, the score is the last of the session's round
    scores and every further guess of the player is refused with the
    round-finished error and changes nothing, whatever the mode of the
    session. *)
Theorem win_is_terminal E p guess env score n t achs :
  snd (make_guess E p guess env) = RCorrect score n t achs ->
  exists s' r',
    sessions (fst (make_guess E p guess env)) !! p = Some s'
    /\ active_round s' = Some r' /\ active r' = false
    /\ last (round_scores s') = Some score
    /\ forall guess' env',
         make_guess (fst (make_guess E p guess env)) p guess' env'
         = (fst (make_guess E p guess env), RError ErrRoundFinished).
Proof.
  intros Hres.
  destruct (make_guess_cases E p guess env)
    as [[_ Heq]|[(s0 & _ & _ & _ & Heq)|(s0 & s & r & Hs & Hplay & _ & _ & _ & _ & Hmg)]].
  { rewrite Heq in Hres. discriminate. }
  { rewrite Hres in Heq. discriminate. }
  rewrite Hmg in Hres |- *.
  destruct (guess_in_round_cases (engine_in_play E p s0 env) p s r guess env)
    as [[_ Heq]|[(_ & _ & Heq)|[(_ & _ & _ & e & Heq & _)
       |[(_ & _ & g & _ & _ & _ & Heq)|(_ & _ & g & _ & _ & _ & Heq)]]]];
    rewrite Heq in Hres |- *; try discriminate.
  cbn [snd] in Hres. injection Hres as <- _ _ _. cbn [fst].
  set (E1 := engine_in_play E p s0 env).
  set (s' := append_score (set_active_round s (Some (won_round r g)))
                          (win_score s r g env)).
  assert (Hs' : sessions (fst (check_achievements (win_state E1 p s r g env) p
                                 (attempts r + 1) (win_score s r g env)
                                 (win_clock env - start_time r))) !! p = Some s').
  { rewrite sessions_check_achievements. unfold win_state.
    rewrite sessions_update_player_stats. apply lookup_store_session. }
  exists s', (won_round r g).
  split; [exact Hs'|]. split; [reflexivity|]. split; [reflexivity|].
  split; [cbn; apply last_snoc|].
  intros guess' env'. unfold make_guess. rewrite Hs'.
  cbn [active_round s' append_score set_active_round].
  by apply guess_in_round_finished.
Qed.

Lemma win_is_terminal_witness :
  exists s' r',
    sessions (fst (make_guess sample_engine "alice" (Py.Int 25) sample_guess_env))
      !! "alice" = Some s'
    /\ active_round s' = Some r' /\ active r' = false
    /\ last (round_scores s') = Some 157
    /\ forall guess' env',
         make_guess (fst (make_guess sample_engine "alice" (Py.Int 25) sample_guess_env))
                    "alice" guess' env'
         = (fst (make_guess sample_engine "alice" (Py.Int 25) sample_guess_env),
            RError ErrRoundFinished).
Proof.
  apply (win_is_terminal sample_engine "alice" (Py.Int 25) sample_guess_env 157 1 (12 # 1)
           (snd (check_achievements
                   (win_state sample_engine "alice" sample_session sample_round 25
                              sample_guess_env)
                   "alice" 1 157 (12 # 1)))).
  vm_compute. reflexivity.
Defined.

(** ** Runs of misses *)

Lemma untimed_never_late r now : r_time_limit r = None -> timed_out r now = false.
Proof. intros H. unfold timed_out. by rewrite H. Qed.

(** X7. On a round without a time limit, a run of integer guesses that are
    in range and all miss the secret leaves the round active with the same
    secret, adds the length of the run to the attempts, leaves as closest
    distance the least of the former one and the distances of the guesses,
    and touches neither the round scores nor the statistics nor the
    achievements. *)
Theorem misses_are_counted E p s r (l : list (Z * GuessEnv)) :
  sessions E !! p = Some s ->
  active_round s = Some r ->
  active r = true ->
  r_time_limit r = None ->
  Forall (fun ge => 1 <= fst ge <= max_number s /\ fst ge <> secret_number r) l ->
  exists s' r',
    sessions (guess_all E p l) !! p = Some s'
    /\ active_round s' = Some r' /\ active r' = true
    /\ secret_number r' = secret_number r
    /\ attempts r' = attempts r + Z.of_nat (length l)
    /\ closest_distance r'
       = fold_left Z.min (distances (secret_number r) l) (closest_distance r)
    /\ closest_distance r' <= closest_distance r
    /\ round_scores s' = round_scores s
    /\ max_number s' = max_number s
    /\ stats (guess_all E p l) = stats E
    /\ achievements (guess_all E p l) = achievements E.
Proof.
  revert E s r.
  induction l as [|[g env] l IH]; intros E s r Hs Hr Ha Hlim Hall.
  { exists s, r. cbn. repeat (split; [first [done|lia]|]). done. }
  apply Forall_cons in Hall as [[Hrange Hne] Hall]. cbn [fst] in Hrange, Hne.
  unfold guess_all. cbn [fold_left fst snd].
  assert (Hstep : make_guess E p (Py.Int g) env
                  = (store_session E p (set_active_round s (Some (missed_round s r g))),
                     RWrong (if g <? secret_number r then "too_low" else "too_high")
                            (attempts r + 1) (snd (take_hint s (count_guess r g)))
                            (if g <? secret_number r then "Guess higher" else "Guess lower"))).
  { unfold make_guess. rewrite Hs, Hr.
    destruct (guess_in_round_cases E p s r (Py.Int g) env)
      as [[Hf _]|[(_ & Hlate & _)|[(_ & _ & Hbad & _)
         |[(_ & _ & g' & [= <-] & _ & Heq & _)|(_ & _ & g' & [= <-] & _ & _ & ->)]]]];
      try done.
    - congruence.
    - rewrite (untimed_never_late r _ Hlim) in Hlate. discriminate.
    - unfold turned_down in Hbad. cbn in Hbad. lia. }
  rewrite Hstep. cbn [fst].
  set (E1 := store_session E p (set_active_round s (Some (missed_round s r g)))).
  destruct (missed_round_fields s r g)
    as (Es & Eatt & Ec & _ & _ & _ & Eact & El & _).
  destruct (IH E1 (set_active_round s (Some (missed_round s r g))) (missed_round s r g))
    as (s' & r' & Hs' & Hr' & Ha' & Hsec' & Hatt' & Hcl' & Hle' & Hsc' & Hmx' & Hst' & Hach');
    [apply lookup_store_session|reflexivity|by rewrite Eact|by rewrite El| |].
  { rewrite Es. exact Hall. }
  exists s', r'. fold (guess_all E1 p l).
  split; [exact Hs'|]. split; [exact Hr'|]. split; [exact Ha'|].
  split; [by rewrite Hsec', Es|].
  split; [rewrite Hatt', Eatt; cbn [length]; lia|].
  split; [rewrite Hcl', Es, Ec; reflexivity|].
  split; [rewrite Ec in Hle'; lia|].
  done.
Qed.

Lemma misses_are_counted_witness :
  exists s' r',
    sessions (guess_all sample_engine "alice"
                [(10, sample_guess_env); (40, sample_guess_env); (30, sample_guess_env)])
      !! "alice" = Some s'
    /\ active_round s' = Some r' /\ active r' = true
    /\ secret_number r' = 25
    /\ attempts r' = 0 + Z.of_nat 3
    /\ closest_distance r' = fold_left Z.min [15; 15; 5] 50
    /\ closest_distance r' <= 50
    /\ round_scores s' = []
    /\ max_number s' = 50
    /\ stats (guess_all sample_engine "alice"
                [(10, sample_guess_env); (40, sample_guess_env); (30, sample_guess_env)])
       = stats sample_engine
    /\ achievements (guess_all sample_engine "alice"
                [(10, sample_guess_env); (40, sample_guess_env); (30, sample_guess_env)])
       = achievements sample_engine.
Proof.
  apply (misses_are_counted sample_engine "alice" sample_session sample_round
           [(10, sample_guess_env); (40, sample_guess_env); (30, sample_guess_env)]).
  - vm_compute. reflexivity.
  - reflexivity.
  - reflexivity.
  - reflexivity.
  - repeat constructor; cbn; lia.
Defined.

(** ** Players do not interfere *)

Lemma lookup_update_player_stats_ne E p q a w sc :
  p <> q -> stats (update_player_stats E p a w sc) !! q = stats E !! q.
Proof. intros Hne. unfold update_player_stats; cbn. by rewrite lookup_insert_ne. Qed.

Lemma lookup_check_achievements_ne E p q a sc t :
  p <> q ->
  achievements (fst (check_achievements E p a sc t)) !! q = achievements E !! q.
Proof.
  intros Hne. rewrite check_achievements_granted. cbn.
  by rewrite lookup_insert_ne.
Qed.

Lemma guess_in_round_frame E p q s r guess env :
  p <> q ->
  sessions (fst (guess_in_round E p s r guess env)) !! q = sessions E !! q
  /\ stats (fst (guess_in_round E p s r guess env)) !! q = stats E !! q
  /\ achievements (fst (guess_in_round E p s r guess env)) !! q = achievements E !! q.
Proof.
  intros Hne.
  destruct (guess_in_round_cases E p s r guess env)
    as [[_ ->]|[(_ & _ & ->)|[(_ & _ & _ & e & -> & _)
       |[(_ & _ & g & _ & _ & _ & ->)|(_ & _ & g & _ & _ & _ & ->)]]]];
    cbn [fst]; try done.
  - unfold timeout_state.
    rewrite sessions_update_player_stats, achievements_update_player_stats,
      lookup_update_player_stats_ne, lookup_store_session_ne by exact Hne.
    done.
  - rewrite sessions_check_achievements, stats_check_achievements,
      lookup_check_achievements_ne by exact Hne.
    unfold win_state.
    rewrite sessions_update_player_stats, achievements_update_player_stats,
      lookup_update_player_stats_ne, lookup_store_session_ne by exact Hne.
    done.
  - by rewrite lookup_store_session_ne.
Qed.

(** X8. An operation for one player leaves every other player alone: the
    session, the statistics and the achievements of a player other than the
    one the operation names are the same before and after it. *)
Theorem step_leaves_other_players E op q :
  op_player op <> q ->
  sessions (step E op) !! q = sessions E !! q
  /\ stats (step E op) !! q = stats E !! q
  /\ achievements (step E op) !! q = achievements E !! q.
Proof.
  intros Hne. destruct op as [p m d c env|p env|p g env|p]; cbn [step op_player] in *.
  - destruct (start_game_session E p m d c env) as (msg & s & -> & _). cbn [fst].
    by rewrite lookup_store_session_ne.
  - unfold start_round. destruct (sessions E !! p) as [s|]; [|done].
    destruct (open_round s env) as [s' [r|]]; cbn [fst];
      by rewrite lookup_store_session_ne.
  - unfold make_guess. destruct (sessions E !! p) as [s|]; [|done].
    destruct (active_round s) as [r|]; [by apply guess_in_round_frame|].
    destruct (open_round s (implicit_round env)) as [s' [r|]].
    + destruct (guess_in_round_frame (store_session E p s') p q s' r g env Hne)
        as (-> & -> & ->).
      by rewrite lookup_store_session_ne.
    + cbn [fst]. by rewrite lookup_store_session_ne.
  - unfold end_session. destruct (sessions E !! p) as [s|]; [|done].
    cbn. by rewrite lookup_delete_ne.
Qed.

Lemma step_leaves_other_players_witness :
  sessions (step timed_engine (OpGuess "bob" (Py.Int 7) late_guess_env)) !! "alice"
  = sessions timed_engine !! "alice"
  /\ stats (step timed_engine (OpGuess "bob" (Py.Int 7) late_guess_env)) !! "alice"
     = stats timed_engine !! "alice"
  /\ achievements (step timed_engine (OpGuess "bob" (Py.Int 7) late_guess_env)) !! "alice"
     = achievements timed_engine !! "alice".
Proof.
  apply (step_leaves_other_players timed_engine
           (OpGuess "bob" (Py.Int 7) late_guess_env) "alice").
  cbn. discriminate.
Defined.

(** ** Statistics *)

Lemma bump_stats_wf st a w sc :
  st = fresh_stats \/ stats_wf st ->
  0 <= a -> 0 <= sc -> (w = true -> 1 <= a) ->
  stats_wf (bump_stats st a w sc).
Proof.
  intros Hst Ha Hsc Hw.
  assert (H0 : 0 <= games_played st /\ 0 <= games_won st <= games_played st
               /\ games_won st <= total_attempts st
               /\ 0 <= best_score st <= total_score st
               /\ (games_won st = 0 -> best_score st = 0)).
  { destruct Hst as [->|[? ? ? ? ?]]; cbn; repeat split; lia. }
  destruct H0 as (? & ? & ? & ? & ?).
  unfold bump_stats. destruct w.
  - specialize (Hw eq_refl).
    destruct (Z.gtb_spec sc (best_score st)); split; cbn; lia.
  - split; cbn; lia.
Qed.

Lemma update_player_stats_wf E p a w sc :
  all_stats_wf (stats E) ->
  0 <= a -> 0 <= sc -> (w = true -> 1 <= a) ->
  all_stats_wf (stats (update_player_stats E p a w sc)).
Proof.
  intros HE Ha Hsc Hw q st. unfold update_player_stats; cbn [stats with_stats].
  destruct (decide (p = q)) as [->|Hne].
  - rewrite lookup_insert_eq. intros [= <-].
    apply bump_stats_wf; try done.
    unfold _ensure_player_stats.
    destruct (stats E !! q) as [st0|] eqn:Hq; cbn; [right; by apply (HE q)|by left].
  - rewrite lookup_insert_ne by exact Hne. apply HE.
Qed.

Lemma guess_in_round_stats_wf E p s r guess env :
  session_wf s -> active_round s = Some r ->
  all_stats_wf (stats E) ->
  all_stats_wf (stats (fst (guess_in_round E p s r guess env))).
Proof.
  intros Hs Hr HE.
  pose proof (wf_attempts s r (swf_round s Hs r Hr)) as Hatt.
  destruct (guess_in_round_cases E p s r guess env)
    as [[_ ->]|[(_ & _ & ->)|[(_ & _ & _ & e & -> & _)
       |[(_ & _ & g & _ & _ & _ & ->)|(_ & _ & g & _ & _ & _ & ->)]]]];
    cbn [fst]; try done.
  - unfold timeout_state. apply update_player_stats_wf; try done; lia.
  - rewrite stats_check_achievements. unfold win_state.
    apply update_player_stats_wf; try done; try lia.
    apply round_score_nonneg. by apply session_wf_bonus_nonneg.
Qed.

Lemma step_stats_wf E op :
  sessions_wf E -> all_stats_wf (stats E) -> all_stats_wf (stats (step E op)).
Proof.
  intros HE Hst. destruct op as [q m d c env|q env|q g env|q]; cbn [step].
  - by destruct (start_game_session E q m d c env) as (msg & s & -> & _).
  - unfold start_round. destruct (sessions E !! q) as [s|]; [|done].
    by destruct (open_round s env) as [s' [r|]].
  - destruct (make_guess_cases E q g env)
      as [[_ ->]|[(s0 & Hs & _ & Hlow & _)|(s0 & s & r & Hs & Hplay & Hr & _ & Est & _ & ->)]];
      [done| |].
    + pose proof (swf_max s0 (HE q s0 Hs)). lia.
    + destruct (in_play_wf E q s0 env HE Hs) as (s' & r' & Hplay' & Hwf & _).
      rewrite Hplay in Hplay'. injection Hplay' as <- <-.
      apply guess_in_round_stats_wf; try done. by rewrite Est.
  - unfold end_session. by destruct (sessions E !! q).
Qed.

(** X9. When the statistics loaded at start are sound (which none are, or
    each with at least one game played, no more wins than games, no more
    wins than attempts, and a best score between 0 and the total score,
    that is 0 without a win), so are the statistics in every state the
    engine reaches. *)
Theorem running_stats_sound loaded_stats loaded_achievements ops p st :
  all_stats_wf loaded_stats ->
  stats (run (new_engine loaded_stats loaded_achievements) ops) !! p = Some st ->
  1 <= games_played st
  /\ 0 <= games_won st <= games_played st
  /\ games_won st <= total_attempts st
  /\ 0 <= best_score st <= total_score st
  /\ (games_won st = 0 -> best_score st = 0).
Proof.
  intros Hloaded Hp.
  assert (Hinv : sessions_wf (run (new_engine loaded_stats loaded_achievements) ops)
                 /\ all_stats_wf
                      (stats (run (new_engine loaded_stats loaded_achievements) ops))).
  { apply (run_invariant (fun E => sessions_wf E /\ all_stats_wf (stats E))).
    - intros E op [H1 H2]. split; [by apply step_sessions_wf|by apply step_stats_wf].
    - split; [|exact Hloaded]. intros q s. cbn. by rewrite lookup_empty. }
  destruct Hinv as [_ Hst]. by destruct (Hst p st Hp).
Qed.

Lemma running_stats_sound_witness :
  1 <= games_played (mkStats 1 1 1 157 157)
  /\ 0 <= games_won (mkStats 1 1 1 157 157) <= games_played (mkStats 1 1 1 157 157)
  /\ games_won (mkStats 1 1 1 157 157) <= total_attempts (mkStats 1 1 1 157 157)
  /\ 0 <= best_score (mkStats 1 1 1 157 157) <= total_score (mkStats 1 1 1 157 157)
  /\ (games_won (mkStats 1 1 1 157 157) = 0 -> best_score (mkStats 1 1 1 157 157) = 0).
Proof.
  apply (running_stats_sound ∅ ∅
           (sample_ops ++ [OpGuess "alice" (Py.Int 25) sample_guess_env]) "alice").
  - intros q st. by rewrite lookup_empty.
  - vm_compute. reflexivity.
Defined.

Lemma ensure_record_outcome E o p :
  _ensure_player_stats (record_outcome E o) p
  = if decide (o_player o = p)
    then bump_stats (_ensure_player_stats E p) (o_attempts o) (o_won o) (o_score o)
    else _ensure_player_stats E p.
Proof.
  unfold record_outcome, update_player_stats, _ensure_player_stats; cbn.
  destruct (decide (o_player o = p)) as [->|Hne].
  - by rewrite lookup_insert_eq.
  - by rewrite lookup_insert_ne.
Qed.

Lemma bump_stats_fields st a w sc :
  games_played (bump_stats st a w sc) = games_played st + 1
  /\ games_won (bump_stats st a w sc) = games_won st + (if w then 1 else 0)
  /\ total_attempts (bump_stats st a w sc) = total_attempts st + a
  /\ total_score (bump_stats st a w sc) = total_score st + sc.
Proof. unfold bump_stats. destruct w; cbn; repeat split; lia. Qed.

(** X10. After any sequence of recorded rounds, a player's counters are
    the former ones plus what the player's own rounds add: one game played
    per round, one game won per win, the attempts and the scores summed. *)
Theorem stats_accumulate E p (l : list Outcome) :
  games_played (_ensure_player_stats (record_outcomes E l) p)
  = games_played (_ensure_player_stats E p) + Z.of_nat (length (outcomes_of p l))
  /\ games_won (_ensure_player_stats (record_outcomes E l) p)
     = games_won (_ensure_player_stats E p)
       + Z.of_nat (length (filter (fun o => o_won o = true) (outcomes_of p l)))
  /\ total_attempts (_ensure_player_stats (record_outcomes E l) p)
     = total_attempts (_ensure_player_stats E p) + sum (o_attempts <$> outcomes_of p l)
  /\ total_score (_ensure_player_stats (record_outcomes E l) p)
     = total_score (_ensure_player_stats E p) + sum (o_score <$> outcomes_of p l).
Proof.
  unfold record_outcomes, outcomes_of. revert E.
  induction l as [|o l IH]; intros E.
  { cbn. unfold sum. cbn. repeat split; lia. }
  cbn [fold_left]. destruct (IH (record_outcome E o)) as (H1 & H2 & H3 & H4).
  rewrite H1, H2, H3, H4, ensure_record_outcome, filter_cons.
  destruct (decide (o_player o = p)) as [Hp|Hp]; [|done].
  destruct (bump_stats_fields (_ensure_player_stats E p) (o_attempts o) (o_won o)
                              (o_score o)) as (-> & -> & -> & ->).
  rewrite filter_cons, !fmap_cons, !sum_cons.
  destruct (o_won o) eqn:Hw.
  - rewrite decide_True by done. cbn [length]. repeat split; lia.
  - rewrite decide_False by done. cbn [length]. repeat split; lia.
Qed.

(** ** Achievements, further *)

Lemma achievement_list_names E p a sc t :
  rule_name <$> achievement_list E p a sc t = achievement_names.
Proof. reflexivity. Qed.

Lemma achievement_list_same_stats E1 E2 p a sc t :
  stats E1 = stats E2 -> achievement_list E1 p a sc t = achievement_list E2 p a sc t.
Proof. intros H. unfold achievement_list. by rewrite H. Qed.

Lemma elem_of_granted unlocked rules name desc :
  (name, desc) ∈ granted unlocked rules
  <-> exists cond, (name, desc, cond) ∈ rules /\ (name ∉ unlocked) /\ cond = Some true.
Proof.
  unfold granted. rewrite list_elem_of_fmap. split.
  - intros ([[n d] c] & [= -> ->] & [[Hn Hc] Hin]%list_elem_of_filter).
    exists c. done.
  - intros (c & Hin & Hn & Hc). exists (name, desc, c). split; [reflexivity|].
    apply list_elem_of_filter. done.
Qed.

Lemma granted_nil unlocked (rules : list (string * string * option bool)) :
  (forall r, r ∈ rules -> snd r = Some true -> rule_name r ∈ unlocked) ->
  granted unlocked rules = [].
Proof.
  intros H. induction rules as [|r rules IH]; [reflexivity|].
  rewrite granted_cons.
  rewrite decide_False.
  - apply IH. intros r' Hin. apply H. by right.
  - intros [Hn Hc]. apply Hn, H; [by left|exact Hc].
Qed.

(** X11. Judging the same round twice grants nothing the second time: a
    second call of [check_achievements] with the same arguments returns no
    new achievement and leaves the engine as the first call left it. *)
Theorem check_achievements_idempotent E p a sc t :
  check_achievements (fst (check_achievements E p a sc t)) p a sc t
  = (fst (check_achievements E p a sc t), []).
Proof.
  rewrite (check_achievements_granted E). cbn [fst].
  set (old := default [] (achievements E !! p)).
  set (rules := achievement_list E p a sc t).
  set (E1 := with_achievements E _).
  rewrite (check_achievements_granted E1).
  assert (Hrules : achievement_list E1 p a sc t = rules)
    by (by apply achievement_list_same_stats).
  assert (Hold : default [] (achievements E1 !! p) = old ++ (fst <$> granted old rules)).
  { unfold E1; cbn. by rewrite lookup_insert_eq. }
  rewrite Hrules, Hold.
  rewrite (granted_nil (old ++ (fst <$> granted old rules)) rules).
  - rewrite fmap_nil, app_nil_r. f_equal.
    unfold E1, with_achievements; cbn. f_equal.
    by rewrite insert_insert_eq.
  - intros [[name desc] cond] Hin Hc. cbn [snd fst rule_name] in Hc |- *.
    destruct (decide (name ∈ old)) as [Hheld|Hnew]; apply elem_of_app; [by left|right].
    apply list_elem_of_fmap. exists (name, desc). split; [reflexivity|].
    apply elem_of_granted. by exists cond.
Qed.

Lemma granted_names_fresh unlocked rules :
  NoDup (rule_name <$> rules) ->
  NoDup (fst <$> granted unlocked rules)
  /\ forall x, x ∈ (fst <$> granted unlocked rules) ->
               (x ∉ unlocked) /\ x ∈ (rule_name <$> rules).
Proof.
  intros Hnd. split.
  - induction rules as [|r rules IH]; [constructor|].
    rewrite fmap_cons, NoDup_cons in Hnd. destruct Hnd as [Hfresh Hnd].
    rewrite granted_cons. destruct (decide _); [|by apply IH].
    rewrite fmap_cons. apply NoDup_cons. split; [|by apply IH].
    cbn [fst]. intros ([n d] & Heq & (c & Hin & _)%elem_of_granted)%list_elem_of_fmap.
    apply Hfresh. apply list_elem_of_fmap. by exists (n, d, c).
  - intros x ([n d] & -> & (c & Hin & Hn & _)%elem_of_granted)%list_elem_of_fmap.
    split; [exact Hn|]. apply list_elem_of_fmap. by exists (n, d, c).
Qed.

Lemma check_achievements_NoDup E p a sc t q l :
  (forall q' l', achievements E !! q' = Some l' -> NoDup l') ->
  achievements (fst (check_achievements E p a sc t)) !! q = Some l ->
  NoDup l.
Proof.
  intros HE. rewrite check_achievements_granted. cbn.
  destruct (decide (p = q)) as [->|Hne].
  - rewrite lookup_insert_eq. intros [= <-].
    destruct (granted_names_fresh (default [] (achievements E !! q))
                (achievement_list E q a sc t) (achievement_names_NoDup E q a sc t))
      as [Hnd Hfresh].
    apply NoDup_app. split; [|split; [|exact Hnd]].
    + destruct (achievements E !! q) as [l0|] eqn:Hq; cbn; [by apply (HE q)|constructor].
    + intros x Hx Hx'. by destruct (Hfresh x Hx').
  - rewrite lookup_insert_ne by exact Hne. apply HE.
Qed.

(** X12. No achievement is listed twice: when the lists loaded at start
    have no duplicates, neither has any list in any state the engine
    reaches. *)
Theorem running_achievements_NoDup loaded_stats loaded_achievements ops p l :
  (forall q l', loaded_achievements !! q = Some l' -> NoDup l') ->
  achievements (run (new_engine loaded_stats loaded_achievements) ops) !! p = Some l ->
  NoDup l.
Proof.
  intros Hloaded.
  set (P := fun E : GameEngine => forall q l', achievements E !! q = Some l' -> NoDup l').
  assert (HP : P (run (new_engine loaded_stats loaded_achievements) ops));
    [|by apply HP].
  apply (run_invariant P); [|exact Hloaded].
  intros E op HE. destruct op as [q m d c env|q env|q g env|q]; cbn [step].
  - by destruct (start_game_session E q m d c env) as (msg & s & -> & _).
  - unfold start_round. destruct (sessions E !! q) as [s|]; [|done].
    by destruct (open_round s env) as [s' [r|]].
  - destruct (make_guess_cases E q g env)
      as [[_ ->]|[(s0 & Hs & Hplay & _)|(s0 & s & r & _ & _ & _ & _ & _ & Each & ->)]];
      [done| |].
    + unfold make_guess, round_in_play in *. rewrite Hs.
      destruct (active_round s0); [discriminate|].
      by destruct (open_round s0 (implicit_round env)) as [s' [r|]].
    + assert (HE1 : P (engine_in_play E q s0 env)) by (unfold P; by rewrite Each).
      destruct (guess_in_round_cases (engine_in_play E q s0 env) q s r g env)
        as [[_ ->]|[(_ & _ & ->)|[(_ & _ & _ & e & -> & _)
           |[(_ & _ & z & _ & _ & _ & ->)|(_ & _ & z & _ & _ & _ & ->)]]]];
        cbn [fst]; try done.
      intros q' l'. apply check_achievements_NoDup. exact HE1.
  - unfold end_session. by destruct (sessions E !! q).
Qed.

Lemma running_achievements_NoDup_witness : NoDup [first_blood].
Proof.
  apply (running_achievements_NoDup ∅ {[ "alice" := [first_blood] ]} sample_ops "alice").
  - intros q l'. intros [<- <-]%lookup_singleton_Some. by apply NoDup_singleton.
  - vm_compute. reflexivity.
Defined.

Lemma Qltb_lt (x y : Q) : Py.Qltb x y = true <-> (x < y)%Q.
Proof.
  unfold Py.Qltb. rewrite negb_true_iff. split.
  - intros Hb. apply Qnot_le_lt. intros Hle. apply Qle_bool_iff in Hle. congruence.
  - intros Hlt. destruct (Qle_bool y x) eqn:Hb; [|reflexivity].
    apply Qle_bool_iff in Hb. exfalso. by apply (Qlt_not_le _ _ Hlt).
Qed.

Lemma granted_lookup held (rules : list (string * string * option bool)) i n d c :
  NoDup (rule_name <$> rules) ->
  rules !! i = Some (n, d, c) ->
  n ∈ (fst <$> granted held rules) <-> (n ∉ held) /\ c = Some true.
Proof.
  intros Hnd Hi. split.
  - intros ([n' d'] & Heq & (c' & Hin & Hn & Hc)%elem_of_granted)%list_elem_of_fmap.
    cbn in Heq. subst n'.
    apply list_elem_of_lookup in Hin as [j Hj].
    assert (i = j) as <-.
    { apply (NoDup_lookup (rule_name <$> rules) i j n Hnd);
        rewrite list_lookup_fmap; [by rewrite Hi|by rewrite Hj]. }
    rewrite Hi in Hj. by injection Hj as <- <-.
  - intros [Hn Hc]. apply list_elem_of_fmap. exists (n, d). split; [reflexivity|].
    apply elem_of_granted. exists c. split; [|done].
    apply list_elem_of_lookup. by exists i.
Qed.

(** X13. When each achievement is granted: a call of [check_achievements]
    reports a rule exactly when the player does not hold it yet and, in the
    order of the rules, the player has exactly one game won; the time taken
    is under 10 seconds; the attempts are 1; the score is over 150; the
    player has 10 games won or more; the attempts are 5 or fewer; the score
    is over 200.  For a player without statistics the first and the fifth
    are not granted. *)
Theorem achievements_granted_when E p a sc t :
  let new := fst <$> snd (check_achievements E p a sc t) in
  let held := get_achievements E p in
  let won := games_won <$> (stats E !! p) in
  (achievement_name 0 ∈ new <-> (achievement_name 0 ∉ held) /\ won = Some 1)
  /\ (achievement_name 1 ∈ new
      <-> (achievement_name 1 ∉ held) /\ (t < inject_Z 10)%Q)
  /\ (achievement_name 2 ∈ new <-> (achievement_name 2 ∉ held) /\ a = 1)
  /\ (achievement_name 3 ∈ new <-> (achievement_name 3 ∉ held) /\ 150 < sc)
  /\ (achievement_name 4 ∈ new
      <-> (achievement_name 4 ∉ held) /\ exists w, won = Some w /\ 10 <= w)
  /\ (achievement_name 5 ∈ new <-> (achievement_name 5 ∉ held) /\ a <= 5)
  /\ (achievement_name 6 ∈ new <-> (achievement_name 6 ∉ held) /\ 200 < sc)
  /\ length achievement_names = 7%nat.
Proof.
  intros new held won.
  assert (Hnew : new = fst <$> granted held (achievement_list E p a sc t)).
  { unfold new. by rewrite check_achievements_granted. }
  pose proof (achievement_names_NoDup E p a sc t) as Hnd.
  rewrite Hnew.
  repeat match goal with
         | |- (_ <-> _) /\ _ => split
         | |- _ <-> _ => split
         end;
    [..|reflexivity].
  all: try match goal with
       | |- achievement_name ?i ∈ _ -> _ =>
           intros [Hn Hc]%(granted_lookup held _ i _ _ _ Hnd eq_refl);
           split; [exact Hn|]
       | |- _ /\ _ -> achievement_name ?i ∈ _ =>
           intros [Hn Hc];
           apply (granted_lookup held _ i _ _ _ Hnd eq_refl);
           split; [exact Hn|]
       end.
  - fold won in Hc. destruct won as [w|]; [|discriminate].
    injection Hc as Hc. apply Z.eqb_eq in Hc. by subst.
  - fold won. rewrite Hc. reflexivity.
  - injection Hc as Hc. by apply Qltb_lt.
  - f_equal. by apply Qltb_lt.
  - injection Hc as Hc. by apply Z.eqb_eq.
  - f_equal. by apply Z.eqb_eq.
  - injection Hc as Hc. apply Z.gtb_lt in Hc. lia.
  - f_equal. apply Z.gtb_lt. lia.
  - fold won in Hc. destruct won as [w|]; [|discriminate].
    injection Hc as Hc. exists w. split; [reflexivity|]. apply Z.geb_le in Hc. lia.
  - fold won. destruct Hc as (w & -> & Hw). cbn. f_equal. apply Z.geb_le. lia.
  - injection Hc as Hc. by apply Z.leb_le.
  - f_equal. by apply Z.leb_le.
  - injection Hc as Hc. apply Z.gtb_lt in Hc. lia.
  - f_equal. apply Z.gtb_lt. lia.
Qed.

Example achievement_name_examples :
  achievement_name 0 = first_blood
  /\ achievement_names = rule_name <$> achievement_list veteran_engine "alice" 1 157 12
  /\ (fst <$> snd (check_achievements
                     (update_player_stats (new_engine ∅ ∅) "alice" 1 true 157)
                     "alice" 1 157 (12 # 1)))
     = [achievement_name 0; achievement_name 2; achievement_name 3; achievement_name 5].
Proof. repeat split; vm_compute; reflexivity. Qed.

(** ** The score as a function of attempts and time *)

Lemma trunc_ceiling (q : Q) : (q <= 0)%Q -> Py.trunc q = Qceiling q.
Proof.
  destruct q as [n d]. unfold Qle, Py.trunc, Qceiling, Qfloor; cbn. intros H.
  assert (Hn : n <= 0) by lia.
  replace n with (- - n) at 1 by lia.
  rewrite Z.quot_opp_l by lia. rewrite Z.quot_div_nonneg by lia. reflexivity.
Qed.

Lemma trunc_mono (q1 q2 : Q) : (q1 <= q2)%Q -> Py.trunc q1 <= Py.trunc q2.
Proof.
  intros Hle.
  destruct (Qlt_le_dec q1 0) as [H1|H1], (Qlt_le_dec q2 0) as [H2|H2].
  - rewrite !trunc_ceiling by (by apply Qlt_le_weak). by apply Qceiling_resp_le.
  - rewrite (trunc_ceiling q1) by (by apply Qlt_le_weak).
    rewrite (trunc_floor q2) by exact H2.
    pose proof (Qceiling_resp_le q1 0 (Qlt_le_weak _ _ H1)) as Hc.
    pose proof (Qfloor_resp_le 0 q2 H2) as Hf.
    change (Qceiling 0) with 0 in Hc. change (Qfloor 0) with 0 in Hf. lia.
  - exfalso. apply (Qlt_not_le _ _ H2). by apply (Qle_trans _ q1).
  - rewrite !trunc_floor by assumption. by apply Qfloor_resp_le.
Qed.

(** X14. Fewer attempts and less time never score lower: with the same
    closest distance, power-up and doubling, a round with no more attempts
    and no more elapsed time than another scores at least as much, for any
    multiplier that is not negative. *)
Theorem round_score_antitone s r1 r2 (t1 t2 : Q) :
  (0 <= difficulty_bonus s)%Q ->
  attempts r1 <= attempts r2 ->
  (t1 <= t2)%Q ->
  closest_distance r1 = closest_distance r2 ->
  powerup_used r1 = powerup_used r2 ->
  double_score r1 = double_score r2 ->
  round_score s r2 t2 <= round_score s r1 t1.
Proof.
  intros Hb Ha Ht Hc Hp Hd. unfold round_score. rewrite Hc, Hp, Hd, !Qltb_dec.
  assert (Hdiff : Py.trunc (inject_Z (Z.max 0 (100 - attempts r2)) * difficulty_bonus s)
                  <= Py.trunc (inject_Z (Z.max 0 (100 - attempts r1))
                               * difficulty_bonus s)).
  { apply trunc_mono, Qmult_le_compat_r; [|exact Hb]. rewrite <- Zle_Qle. lia. }
  assert (Htime : (if Qlt_le_dec t2 (inject_Z 50) then Z.max 0 (50 - Py.trunc t2) else 0)
                  <= (if Qlt_le_dec t1 (inject_Z 50)
                      then Z.max 0 (50 - Py.trunc t1) else 0)).
  { pose proof (trunc_mono t1 t2 Ht).
    destruct (Qlt_le_dec t2 _) as [H2|H2], (Qlt_le_dec t1 _) as [H1|H1]; try lia.
    exfalso. apply (Qlt_not_le _ _ H2). by apply (Qle_trans _ t1). }
  destruct (double_score r2); lia.
Qed.

Lemma round_score_antitone_witness :
  round_score sample_session (set_attempts sample_round 4) (30 # 1)
  <= round_score sample_session (set_attempts sample_round 1) (12 # 1).
Proof.
  apply (round_score_antitone sample_session (set_attempts sample_round 1)
                              (set_attempts sample_round 4) (12 # 1) (30 # 1)).
  - vm_compute. discriminate.
  - cbn. lia.
  - vm_compute. discriminate.
  - reflexivity.
  - reflexivity.
  - reflexivity.
Defined.

(** ** Hall of fame *)

Lemma insert_by_best_perm x l : insert_by_best x l ≡ₚ x :: l.
Proof.
  induction l as [|y l IH]; cbn; [reflexivity|].
  destruct (_ <? _); [|reflexivity].
  rewrite IH. apply Permutation_swap.
Qed.

Lemma sorted_by_best_perm items : sorted_by_best items ≡ₚ items.
Proof.
  induction items as [|x items IH]; cbn; [reflexivity|].
  rewrite insert_by_best_perm. by apply Permutation_skip.
Qed.

Lemma insert_by_best_sorted x l :
  StronglySorted by_best_desc l -> StronglySorted by_best_desc (insert_by_best x l).
Proof.
  induction l as [|y l IH]; intros Hl; cbn.
  { repeat constructor. }
  apply StronglySorted_cons in Hl as [Hy Hl].
  destruct (Z.ltb_spec (best_score (snd x)) (best_score (snd y))) as [Hlt|Hge].
  - apply StronglySorted_cons. split; [|by apply IH].
    rewrite insert_by_best_perm. constructor; [|exact Hy].
    unfold by_best_desc. lia.
  - apply StronglySorted_cons. split; [|by apply StronglySorted_cons].
    constructor; [exact Hge|].
    eapply Forall_impl; [exact Hy|]. unfold by_best_desc. intros z Hz. cbn in Hz. lia.
Qed.

Lemma sorted_by_best_sorted items : StronglySorted by_best_desc (sorted_by_best items).
Proof.
  induction items as [|x items IH]; cbn; [constructor|].
  by apply insert_by_best_sorted.
Qed.

Lemma insert_by_best_filter (k : Z) x l :
  filter (fun y : string * PlayerStats => best_score (snd y) = k) (insert_by_best x l)
  = filter (fun y : string * PlayerStats => best_score (snd y) = k) (x :: l).
Proof.
  induction l as [|y l IH]; cbn [insert_by_best]; [reflexivity|].
  destruct (Z.ltb_spec (best_score (snd x)) (best_score (snd y))) as [Hlt|Hge];
    [|reflexivity].
  rewrite (filter_cons _ y), IH, !(filter_cons _ x), (filter_cons _ y).
  destruct (decide (best_score (snd y) = k)), (decide (best_score (snd x) = k));
    try reflexivity.
  lia.
Qed.

Lemma sorted_by_best_filter (k : Z) items :
  filter (fun y : string * PlayerStats => best_score (snd y) = k) (sorted_by_best items)
  = filter (fun y : string * PlayerStats => best_score (snd y) = k) items.
Proof.
  induction items as [|x items IH]; cbn [sorted_by_best fold_right]; [reflexivity|].
  fold (sorted_by_best items).
  by rewrite insert_by_best_filter, !filter_cons, IH.
Qed.

Lemma slice_to_take {A} (l : list A) (n : Z) :
  slice_to l n = take (slice_length (length l) n) l.
Proof.
  unfold slice_to, slice_length. destruct (0 <=? n); [|reflexivity].
  destruct (Nat.le_gt_cases (Z.to_nat n) (length l)) as [Hle|Hgt].
  - by rewrite Nat.min_l.
  - rewrite Nat.min_r by lia. rewrite !take_ge by lia. reflexivity.
Qed.

Lemma slice_length_le len n : (slice_length len n <= len)%nat.
Proof. unfold slice_length. destruct (0 <=? n); lia. Qed.

Lemma hall_of_fame_eq E items limit :
  hall_of_fame E items limit
  = hof_entry E <$> take (slice_length (length items) limit) (sorted_by_best items).
Proof.
  unfold hall_of_fame. rewrite slice_to_take, (Permutation_length (sorted_by_best_perm items)).
  destruct items; [|reflexivity].
  cbn. by rewrite take_nil.
Qed.

(** X15. The hall of fame lists the best first: its entries are in
    descending order of best score, nobody who is left out has a higher
    best score than somebody who is listed, and the number of entries is
    that of the slice [[:limit]] of the players: [limit] of them at most
    when [limit] is not negative, all but the last [-limit] when it is. *)
Theorem hall_of_fame_best_first E items limit :
  StronglySorted hof_desc (hall_of_fame E items limit)
  /\ length (hall_of_fame E items limit) = slice_length (length items) limit
  /\ exists shown rest,
       hall_of_fame E items limit = hof_entry E <$> shown
       /\ shown ++ rest ≡ₚ items
       /\ forall x y, x ∈ shown -> y ∈ rest ->
                      best_score (snd y) <= best_score (snd x).
Proof.
  rewrite hall_of_fame_eq.
  set (k := slice_length (length items) limit).
  pose proof (sorted_by_best_sorted items) as Hsorted.
  rewrite <- (take_drop k (sorted_by_best items)) in Hsorted.
  split.
  { apply (StronglySorted_fmap _ by_best_desc); [by intros x y|].
    by apply StronglySorted_app_1_l in Hsorted. }
  split.
  { rewrite length_fmap, length_take, (Permutation_length (sorted_by_best_perm items)).
    pose proof (slice_length_le (length items) limit). unfold k. lia. }
  exists (take k (sorted_by_best items)), (drop k (sorted_by_best items)).
  split; [reflexivity|]. split.
  { rewrite take_drop. apply sorted_by_best_perm. }
  intros x y Hx Hy.
  apply (StronglySorted_app_1_elem_of by_best_desc _ _ x y Hsorted Hx Hy).
Qed.

(** X16. Ties keep the order of entry: among the listed players with the
    same best score, the order is the one in which they stand in the
    dictionary; the listed ones are the first of them, and all of them when
    [limit] is at least the number of players. *)
Theorem hall_of_fame_ties_in_order E items limit (k : Z) :
  (hof_player <$> filter (fun e => hof_best_score e = k) (hall_of_fame E items limit))
    `prefix_of`
    (fst <$> filter (fun x : string * PlayerStats => best_score (snd x) = k) items)
  /\ (Z.of_nat (length items) <= limit ->
      hof_player <$> filter (fun e => hof_best_score e = k) (hall_of_fame E items limit)
      = fst <$> filter (fun x : string * PlayerStats => best_score (snd x) = k) items).
Proof.
  rewrite hall_of_fame_eq.
  set (n := slice_length (length items) limit).
  assert (Hmap : forall l : list (string * PlayerStats),
             hof_player <$> filter (fun e => hof_best_score e = k) (hof_entry E <$> l)
             = fst <$> filter (fun x : string * PlayerStats => best_score (snd x) = k) l).
  { induction l as [|x l IH]; [reflexivity|].
    rewrite fmap_cons, !filter_cons. cbn [hof_best_score hof_entry].
    destruct (decide (best_score (snd x) = k)); [|exact IH].
    rewrite !fmap_cons, IH. reflexivity. }
  rewrite Hmap. split.
  - rewrite <- (sorted_by_best_filter k items).
    rewrite <- (take_drop n (sorted_by_best items)) at 2.
    rewrite filter_app, fmap_app. by apply prefix_app_r.
  - intros Hall. rewrite take_ge; [by rewrite sorted_by_best_filter|].
    rewrite (Permutation_length (sorted_by_best_perm items)).
    unfold n, slice_length. destruct (Z.leb_spec 0 limit); lia.
Qed.

Lemma hall_of_fame_ties_in_order_witness :
  (hof_player <$> filter (fun e => hof_best_score e = 157)
     (hall_of_fame (new_engine ∅ ∅)
        [("alice", mkStats 1 1 1 157 157); ("bob", mkStats 2 1 9 200 200);
         ("carol", mkStats 1 1 1 157 157)] 5))
    `prefix_of`
    (fst <$> filter (fun x : string * PlayerStats => best_score (snd x) = 157)
       [("alice", mkStats 1 1 1 157 157); ("bob", mkStats 2 1 9 200 200);
        ("carol", mkStats 1 1 1 157 157)])
  /\ (Z.of_nat (length [("alice", mkStats 1 1 1 157 157); ("bob", mkStats 2 1 9 200 200);
                        ("carol", mkStats 1 1 1 157 157)]) <= 5 ->
      hof_player <$> filter (fun e => hof_best_score e = 157)
        (hall_of_fame (new_engine ∅ ∅)
           [("alice", mkStats 1 1 1 157 157); ("bob", mkStats 2 1 9 200 200);
            ("carol", mkStats 1 1 1 157 157)] 5)
      = fst <$> filter (fun x : string * PlayerStats => best_score (snd x) = 157)
          [("alice", mkStats 1 1 1 157 157); ("bob", mkStats 2 1 9 200 200);
           ("carol", mkStats 1 1 1 157 157)]).
Proof.
  apply (hall_of_fame_ties_in_order (new_engine ∅ ∅)
           [("alice", mkStats 1 1 1 157 157); ("bob", mkStats 2 1 9 200 200);
            ("carol", mkStats 1 1 1 157 157)] 5 157).
Defined.

(** X17. What the hall of fame says of a player: when [items] lists the
    statistics, no player is listed twice, every entry carries the best
    score of the player's statistics and the number of the achievements the
    player holds, and with a [limit] of at least the number of players
    every player with statistics is listed. *)
Theorem hall_of_fame_entries E items limit :
  items_of (stats E) items ->
  NoDup (hof_player <$> hall_of_fame E items limit)
  /\ (forall e, e ∈ hall_of_fame E items limit ->
        exists st, stats E !! hof_player e = Some st
                   /\ hof_best_score e = best_score st
                   /\ hof_achievements e
                      = Z.of_nat (length (get_achievements E (hof_player e))))
  /\ (Z.of_nat (length items) <= limit ->
      forall q st, stats E !! q = Some st ->
                   exists e, e ∈ hall_of_fame E items limit /\ hof_player e = q
                             /\ hof_best_score e = best_score st).
Proof.
  intros [Hnd Hitems]. rewrite hall_of_fame_eq.
  set (n := slice_length (length items) limit).
  assert (Hplayers : forall l : list (string * PlayerStats),
             hof_player <$> (hof_entry E <$> l) = fst <$> l).
  { intros l. rewrite <- list_fmap_compose. reflexivity. }
  assert (Hsub : forall x, x ∈ take n (sorted_by_best items) -> x ∈ items).
  { intros x Hx. rewrite <- (sorted_by_best_perm items).
    rewrite <- (take_drop n (sorted_by_best items)). apply elem_of_app. by left. }
  split.
  { rewrite Hplayers.
    assert (Hnd' : NoDup (fst <$> sorted_by_best items)).
    { by rewrite (sorted_by_best_perm items). }
    rewrite <- (take_drop n (sorted_by_best items)), fmap_app in Hnd'.
    by apply NoDup_app in Hnd' as [? _]. }
  split.
  { intros e ([q st] & -> & Hx)%list_elem_of_fmap.
    exists st. split; [|done]. apply Hitems. by apply Hsub. }
  intros Hall q st Hq.
  exists (hof_entry E (q, st)). split; [|done].
  apply list_elem_of_fmap. exists (q, st). split; [reflexivity|].
  rewrite take_ge.
  - rewrite (sorted_by_best_perm items). by apply Hitems.
  - rewrite (Permutation_length (sorted_by_best_perm items)).
    unfold n, slice_length. destruct (Z.leb_spec 0 limit); lia.
Qed.

Lemma hall_of_fame_entries_witness :
  NoDup (hof_player <$> hall_of_fame
           (fst (make_guess sample_engine "alice" (Py.Int 25) sample_guess_env))
           [("alice", mkStats 1 1 1 157 157)] 5)
  /\ (forall e, e ∈ hall_of_fame
                      (fst (make_guess sample_engine "alice" (Py.Int 25) sample_guess_env))
                      [("alice", mkStats 1 1 1 157 157)] 5 ->
        exists st,
          stats (fst (make_guess sample_engine "alice" (Py.Int 25) sample_guess_env))
            !! hof_player e = Some st
          /\ hof_best_score e = best_score st
          /\ hof_achievements e
             = Z.of_nat (length (get_achievements
                  (fst (make_guess sample_engine "alice" (Py.Int 25) sample_guess_env))
                  (hof_player e))))
  /\ (Z.of_nat (length [("alice", mkStats 1 1 1 157 157)]) <= 5 ->
      forall q st,
        stats (fst (make_guess sample_engine "alice" (Py.Int 25) sample_guess_env))
          !! q = Some st ->
        exists e, e ∈ hall_of_fame
                        (fst (make_guess sample_engine "alice" (Py.Int 25)
                                         sample_guess_env))
                        [("alice", mkStats 1 1 1 157 157)] 5
                  /\ hof_player e = q /\ hof_best_score e = best_score st).
Proof.
  apply (hall_of_fame_entries
           (fst (make_guess sample_engine "alice" (Py.Int 25) sample_guess_env))
           [("alice", mkStats 1 1 1 157 157)] 5).
  split.
  - apply (bool_decide_unpack _). vm_compute. exact I.
  - intros k v.
    assert (Hst : stats (fst (make_guess sample_engine "alice" (Py.Int 25)
                                         sample_guess_env))
                  = {[ "alice" := mkStats 1 1 1 157 157 ]})
      by (vm_compute; reflexivity).
    rewrite Hst, list_elem_of_singleton, lookup_singleton_Some.
    split; [intros [= -> ->]; done|intros [<- <-]; done].
Defined.

Example hall_of_fame_examples :
  let E := new_engine ∅ {[ "bob" := ["a"; "b"] ]} in
  let items := [("alice", mkStats 1 1 1 157 157); ("bob", mkStats 2 1 9 200 200);
                ("carol", mkStats 1 1 1 157 157); ("dave", mkStats 3 0 7 0 0)] in
  hall_of_fame E items 3
  = [mkHofEntry "bob" 200 2; mkHofEntry "alice" 157 0; mkHofEntry "carol" 157 0]
  /\ hall_of_fame E items (-1) = hall_of_fame E items 3
  /\ hall_of_fame E items 0 = []
  /\ hof_route E items (Some "2") = [mkHofEntry "bob" 200 2; mkHofEntry "alice" 157 0]
  /\ hof_route E items (Some "many") = hof_route E items None
  /\ length (hof_route E items None) = 4%nat.
Proof. repeat split; vm_compute; reflexivity. Qed.

(** ** Routes *)









Example multi_round_is_stuck :
  let E := serve (new_engine ∅ ∅)
             [PostStart (Some "alice") (Some "2") (Some "1") None
                        sample_start_env sample_round_env;
              PostGuess (Some "alice") (Some (Py.Int 25)) sample_guess_env] in
  (rounds_total <$> (sessions E !! "alice")) = Some 3
  /\ snd (post_guess E (Some "alice") (Some (Py.Int 7)) sample_guess_env)
     = Reply200 (RError ErrRoundFinished)
  /\ snd (post_end E (Some "alice")) = Reply200 (RSessionEnded "alice" 157 [157])
  /\ snd (post_guess E None (Some (Py.Int 7)) sample_guess_env)
     = Reply400 "player required"
  /\ snd (post_guess E (Some "alice") None sample_guess_env)
     = Reply400 "guess required".
Proof. repeat split; vm_compute; reflexivity. Qed.

(** ** When the statistics change *)

Lemma ensure_update_player_stats E p a w sc :
  _ensure_player_stats (update_player_stats E p a w sc) p
  = bump_stats (_ensure_player_stats E p) a w sc.
Proof.
  unfold update_player_stats, _ensure_player_stats at 1; cbn.
  by rewrite lookup_insert_eq.
Qed.

Lemma ensure_same_stats E1 E2 p :
  stats E1 = stats E2 -> _ensure_player_stats E1 p = _ensure_player_stats E2 p.
Proof. intros H. unfold _ensure_player_stats. by rewrite H. Qed.

(** X20. Only the end of a round touches the books.  An operation that is
    answered with a win adds one game played and one game won to the
    player's statistics, one that is answered with a timeout adds one game
    played and no win, and every other operation (a start, the opening of
    a round, a miss, a refused guess, the end of a session, even with a
    round under way) leaves all statistics and all achievements as they
    were. *)
Theorem statistics_change_when_a_round_ends E op :
  match respond E op with
  | RCorrect _ _ _ _ =>
      games_played (_ensure_player_stats (step E op) (op_player op))
      = games_played (_ensure_player_stats E (op_player op)) + 1
      /\ games_won (_ensure_player_stats (step E op) (op_player op))
         = games_won (_ensure_player_stats E (op_player op)) + 1
  | RTimeout _ =>
      games_played (_ensure_player_stats (step E op) (op_player op))
      = games_played (_ensure_player_stats E (op_player op)) + 1
      /\ games_won (_ensure_player_stats (step E op) (op_player op))
         = games_won (_ensure_player_stats E (op_player op))
      /\ achievements (step E op) = achievements E
  | _ => stats (step E op) = stats E /\ achievements (step E op) = achievements E
  end.
Proof.
  destruct op as [p m d c env|p env|p g env|p]; cbn [respond step op_player].
  - by destruct (start_game_session E p m d c env) as (msg & s & -> & _).
  - unfold start_round. destruct (sessions E !! p) as [s|]; [|done].
    by destruct (open_round s env) as [s' [r|]].
  - destruct (make_guess_cases E p g env)
      as [[_ ->]|[(s0 & Hs & Hplay & _)|(s0 & s & r & _ & _ & _ & _ & Est & Each & ->)]];
      [done| |].
    + unfold make_guess, round_in_play in *. rewrite Hs.
      destruct (active_round s0); [discriminate|].
      by destruct (open_round s0 (implicit_round env)) as [s' [r|]].
    + set (E1 := engine_in_play E p s0 env) in *.
      destruct (guess_in_round_cases E1 p s r g env)
        as [[_ ->]|[(_ & _ & ->)|[(_ & _ & _ & e & -> & _)
           |[(_ & _ & z & _ & _ & _ & ->)|(_ & _ & z & _ & _ & _ & ->)]]]];
        cbn [fst snd]; try done.
      * unfold timeout_state. rewrite ensure_update_player_stats.
        rewrite (ensure_same_stats (store_session E1 p _) E p) by exact Est.
        destruct (bump_stats_fields (_ensure_player_stats E p) (attempts r) false 0)
          as (-> & -> & _).
        split; [reflexivity|]. split; [lia|exact Each].
      * rewrite (ensure_same_stats _ (win_state E1 p s r z env) p)
          by apply stats_check_achievements.
        unfold win_state. rewrite ensure_update_player_stats.
        rewrite (ensure_same_stats (store_session E1 p _) E p) by exact Est.
        destruct (bump_stats_fields (_ensure_player_stats E p) (attempts r + 1) true
                                    (win_score s r z env)) as (-> & -> & _).
        done.
  - unfold end_session. by destruct (sessions E !! p).
Qed.
